(** * HydroGuard: the monitoring screen of app/index.tsx as a state machine

    The component [App] keeps nine [useState] cells, registers timers
    ([setTimeout], [setInterval]), opens [Alert] dialogs and issues one HTTP
    request per tick.  All of that is modelled below by explicit state
    passing: the [useState] cells form the record [AppState], and what the
    JavaScript runtime holds on behalf of the component (pending timers, open
    dialogs, requests in flight) forms the record [World].  Every callback of
    the source is a function on these records, and a callback that can throw
    returns a [Completion].

    The repository holds two revisions of app/index.tsx.  The first has the
    sensor dashboard ([fetchData], the chart, [renderSensorData]); the second
    has the device scanner ([scanForDevices] and the connection screen).
    [connectToDevice], [disconnectDevice], [toggleMonitoring] and the
    monitoring effect are the same in both, except that the interval callback
    of the first revision also calls [fetchData].  The machine below carries
    the callbacks of both.

    JavaScript numbers are binary64 values, which are rationals: they are
    modelled by [Q] and, where the source only ever stores integers, by [Z].
    The one arithmetic operation of the component, [Math.random() * 100],
    rounds to the nearest binary64 value; see [scales]. *)

From Stdlib Require Import ZArith QArith Qround Qabs Qpower String List Bool Lia Lqa.
From stdpp Require Import gmap strings list fin_maps.
Import ListNotations.

#[local] Set Warnings "-register-all".
#[local] Open Scope string_scope.
#[local] Open Scope Z_scope.

(** ** JavaScript values *)

(** A value produced by [JSON.parse]: the result of [response.json()]. An
    object is the finite map of its own properties. *)
Inductive JSON : Type :=
| JNull
| JBool (b : bool)
| JNum (q : Q)
| JStr (s : string)
| JArr (items : list JSON)
| JObj (props : gmap string JSON).

(** A JavaScript value is a JSON value or [undefined] ([None]). *)
Abbreviation JSValue := (option JSON).
Abbreviation undefined := (@None JSON).

Inductive Exception : Type :=
| TypeError
| SyntaxError
| NetworkError
| HttpError (status : Z).

(** The outcome of evaluating an expression or running a callback. *)
Inductive Completion (A : Type) : Type :=
| Normal (a : A)
| Throw (e : Exception).
Arguments Normal {A} a.
Arguments Throw {A} e.

#[global] Instance Completion_ret : MRet Completion := @Normal.
#[global] Instance Completion_bind : MBind Completion :=
  fun A B (k : A -> Completion B) (c : Completion A) =>
    match c with
    | Normal a => k a
    | Throw e => Throw e
    end.

(** [ToBoolean]: [undefined], [null], [false], [0] and the empty string are
    falsy, every other value is truthy. *)
Definition truthy (v : JSValue) : bool :=
  match v with
  | None => false
  | Some JNull => false
  | Some (JBool b) => b
  | Some (JNum q) => negb (Qeq_bool q 0)
  | Some (JStr s) => negb (String.eqb s "")
  | Some (JArr _) => true
  | Some (JObj _) => true
  end.

(** [v.key] for a key that no built-in prototype or wrapper defines (the
    component reads [heart_rate], [red], [ir], [mpu6050], [gyroscope],
    [accelerometer], [temperature], [x], [y] and [z]): reading a property of
    [null] or [undefined] throws, an object yields its own property, any
    other value yields [undefined]. *)
Definition member (v : JSValue) (key : string) : Completion JSValue :=
  match v with
  | None => Throw TypeError
  | Some JNull => Throw TypeError
  | Some (JObj props) => Normal (props !! key)
  | Some _ => Normal undefined
  end.

(** [v?.key]: short-circuits to [undefined] on [null] and [undefined]. *)
Definition optMember (v : JSValue) (key : string) : Completion JSValue :=
  match v with
  | None => Normal undefined
  | Some JNull => Normal undefined
  | _ => member v key
  end.

(** [v || d] for a default [d] that is a JSON value. *)
Definition orElse (v : JSValue) (d : JSON) : JSON :=
  match v with
  | Some j => if truthy v then j else d
  | None => d
  end.

(** *** Numbers *)

(** The finite binary64 values: [m * 2^e] with a significand of at most 53
    bits and an exponent between -1074 and 971. *)
Definition binary64 (q : Q) : Prop :=
  exists m e : Z,
    Z.abs m < 2 ^ 53 /\ -1074 <= e <= 971 /\ (q == inject_Z m * 2 ^ e)%Q.

(** [p] is a binary64 value nearest to the real number [x]: what an
    arithmetic operation whose exact result is [x] returns, whichever way
    ties are broken. *)
Definition nearest (x p : Q) : Prop :=
  binary64 p /\ forall d : Q, binary64 d -> (Qabs (p - x) <= Qabs (d - x))%Q.

(** [scaled] is a value [Math.random() * 100] can take when [Math.random()]
    returns [random], a binary64 value in [0, 1). *)
Definition scales (random scaled : Q) : Prop :=
  binary64 random /\ (0 <= random)%Q /\ (random < 1)%Q /\
  nearest (random * 100) scaled.

(** ** Data model *)

Module Dev.
Record Device : Type := { id : string; name : string; signalStrength : Z }.
End Dev.
Abbreviation Device := Dev.Device.

Record Dataset : Type := { data : list JSON }.

Record ChartData : Type := { labels : list string; datasets : list Dataset }.

(** The [useState] cells of [App], in declaration order. *)
Record AppState : Type := {
  isConnected : bool;
  waterMovement : Z;
  isMonitoring : bool;
  alertActive : bool;
  isScanning : bool;
  availableDevices : list Device;
  sensorData : JSValue;
  error : option string;
  heartRateData : ChartData
}.

Definition initialState : AppState :=
  {| isConnected := false;
     waterMovement := 0;
     isMonitoring := false;
     alertActive := false;
     isScanning := false;
     availableDevices := [];
     sensorData := Some JNull;
     error := None;
     heartRateData := {| labels := []; datasets := [ {| data := [] |} ] |} |}.

(** The state setters returned by [useState]. *)
Definition setIsConnected (v : bool) (s : AppState) : AppState :=
  {| isConnected := v; waterMovement := waterMovement s;
     isMonitoring := isMonitoring s; alertActive := alertActive s;
     isScanning := isScanning s; availableDevices := availableDevices s;
     sensorData := sensorData s; error := error s;
     heartRateData := heartRateData s |}.

Definition setWaterMovement (v : Z) (s : AppState) : AppState :=
  {| isConnected := isConnected s; waterMovement := v;
     isMonitoring := isMonitoring s; alertActive := alertActive s;
     isScanning := isScanning s; availableDevices := availableDevices s;
     sensorData := sensorData s; error := error s;
     heartRateData := heartRateData s |}.

Definition setIsMonitoring (v : bool) (s : AppState) : AppState :=
  {| isConnected := isConnected s; waterMovement := waterMovement s;
     isMonitoring := v; alertActive := alertActive s;
     isScanning := isScanning s; availableDevices := availableDevices s;
     sensorData := sensorData s; error := error s;
     heartRateData := heartRateData s |}.

Definition setAlertActive (v : bool) (s : AppState) : AppState :=
  {| isConnected := isConnected s; waterMovement := waterMovement s;
     isMonitoring := isMonitoring s; alertActive := v;
     isScanning := isScanning s; availableDevices := availableDevices s;
     sensorData := sensorData s; error := error s;
     heartRateData := heartRateData s |}.

Definition setIsScanning (v : bool) (s : AppState) : AppState :=
  {| isConnected := isConnected s; waterMovement := waterMovement s;
     isMonitoring := isMonitoring s; alertActive := alertActive s;
     isScanning := v; availableDevices := availableDevices s;
     sensorData := sensorData s; error := error s;
     heartRateData := heartRateData s |}.

Definition setAvailableDevices (v : list Device) (s : AppState) : AppState :=
  {| isConnected := isConnected s; waterMovement := waterMovement s;
     isMonitoring := isMonitoring s; alertActive := alertActive s;
     isScanning := isScanning s; availableDevices := v;
     sensorData := sensorData s; error := error s;
     heartRateData := heartRateData s |}.

Definition setSensorData (v : JSValue) (s : AppState) : AppState :=
  {| isConnected := isConnected s; waterMovement := waterMovement s;
     isMonitoring := isMonitoring s; alertActive := alertActive s;
     isScanning := isScanning s; availableDevices := availableDevices s;
     sensorData := v; error := error s;
     heartRateData := heartRateData s |}.

Definition setError (v : option string) (s : AppState) : AppState :=
  {| isConnected := isConnected s; waterMovement := waterMovement s;
     isMonitoring := isMonitoring s; alertActive := alertActive s;
     isScanning := isScanning s; availableDevices := availableDevices s;
     sensorData := sensorData s; error := v;
     heartRateData := heartRateData s |}.

Definition setHeartRateData (v : ChartData) (s : AppState) : AppState :=
  {| isConnected := isConnected s; waterMovement := waterMovement s;
     isMonitoring := isMonitoring s; alertActive := alertActive s;
     isScanning := isScanning s; availableDevices := availableDevices s;
     sensorData := sensorData s; error := error s;
     heartRateData := v |}.

(** ** The runtime around the component *)

(** What a one-shot timer runs when it fires. *)
Inductive Callback : Type :=
| ScanDone
| ConnectDone (device : Device).

(** A timer registered by [setTimeout]: its delay in milliseconds and its
    callback. *)
Record Timer : Type := { delay : Z; callback : Callback }.

(** What the button of an [Alert] dialog runs: nothing (the default button)
    or [() => setAlertActive(false)]. *)
Inductive OnPress : Type :=
| NoHandler
| ClearAlert.

Record Dialog : Type := { title : string; message : string; onPress : OnPress }.

(** [interval] is the variable of that name in the monitoring effect: the
    repeating timer it holds, when one is registered, given by its period in
    milliseconds; the callback of that timer is always [tick].  [timeouts] holds
    the one-shot timers that have not fired yet, [dialogs] the alerts on
    screen, [requests] the number of [fetch] calls that have not settled. *)
Record World : Type := {
  ui : AppState;
  interval : option Z;
  timeouts : list Timer;
  dialogs : list Dialog;
  requests : nat
}.

Definition initialWorld : World :=
  {| ui := initialState; interval := None; timeouts := []; dialogs := [];
     requests := 0%nat |}.

Definition setState (f : AppState -> AppState) (w : World) : World :=
  {| ui := f (ui w); interval := interval w; timeouts := timeouts w;
     dialogs := dialogs w; requests := requests w |}.

Definition setTimeout (cb : Callback) (ms : Z) (w : World) : World :=
  {| ui := ui w; interval := interval w;
     timeouts := (timeouts w ++ [ {| delay := ms; callback := cb |} ])%list;
     dialogs := dialogs w; requests := requests w |}.

Definition setInterval (ms : Z) (w : World) : World :=
  {| ui := ui w; interval := Some ms;
     timeouts := timeouts w; dialogs := dialogs w; requests := requests w |}.

Definition clearInterval (w : World) : World :=
  {| ui := ui w; interval := None; timeouts := timeouts w;
     dialogs := dialogs w; requests := requests w |}.

Definition alert (d : Dialog) (w : World) : World :=
  {| ui := ui w; interval := interval w; timeouts := timeouts w;
     dialogs := (dialogs w ++ [d])%list; requests := requests w |}.

(** ** The callbacks of [App] *)

(** *** Device discovery and connection *)

Definition mockDevices : list Device :=
  [ {| Dev.id := "001"; Dev.name := "HydroGuard-Pool"; Dev.signalStrength := 90 |};
    {| Dev.id := "002"; Dev.name := "HydroGuard-Spa"; Dev.signalStrength := 75 |};
    {| Dev.id := "003"; Dev.name := "HydroGuard-Beach"; Dev.signalStrength := 60 |} ].

Definition scanForDevices (w : World) : World :=
  setTimeout ScanDone 2000 (setState (setIsScanning true) w).

(** The function passed to [setTimeout] by [scanForDevices]. *)
Definition scanDone (w : World) : World :=
  setState (setIsScanning false) (setState (setAvailableDevices mockDevices) w).

Definition connectToDevice (device : Device) (w : World) : World :=
  let w1 := setState (setIsScanning false) w in
  let w2 := alert {| title := "Connecting";
                     message := ("Connecting to " ++ Dev.name device ++ "...")%string;
                     onPress := NoHandler |} w1 in
  setTimeout (ConnectDone device) 1500 w2.

(** The function passed to [setTimeout] by [connectToDevice]. *)
Definition connectDone (device : Device) (w : World) : World :=
  alert {| title := "Connected";
           message := ("Successfully connected to " ++ Dev.name device)%string;
           onPress := NoHandler |}
        (setState (setIsConnected true) w).

Definition disconnectDevice (s : AppState) : AppState :=
  setAlertActive false (setIsConnected false (setIsMonitoring false s)).

(** [toggleMonitoring] reads [isMonitoring] and [alertActive] of the render
    it was created in, that is of the current state. *)
Definition toggleMonitoring (s : AppState) : AppState :=
  let s1 := setIsMonitoring (negb (isMonitoring s)) s in
  if alertActive s then setAlertActive false s1 else s1.

(** *** Fetching sensor data *)

(** What [fetch] resolves to: the status and what [response.json()] settles
    to ([Throw SyntaxError] when the body is not JSON). *)
Record Response : Type := { status : Z; json : Completion JSON }.

(** [response.ok]: the status is in the range 200-299. *)
Definition ok (r : Response) : bool := (200 <=? status r) && (status r <=? 299).

Definition fetchErrorMessage : string :=
  "Failed to fetch sensor data. Please check your network connection.".

(** The [try] block of [fetchData] up to and including
    [const data = await response.json()]; [net] is what [fetch] settled to
    ([Throw NetworkError] when it rejects). *)
Definition fetchJson (net : Completion Response) : Completion JSON :=
  response ← net;
  if negb (ok response) then Throw (HttpError (status response))
  else json response.

(** The updater passed to [setHeartRateData]; [now] is the value of
    [new Date().toLocaleTimeString()] when React runs it. *)
Definition heartRateUpdater (body : JSON) (now : string) (prevState : ChartData)
  : Completion ChartData :=
  let newLabels := labels prevState in
  first ← match datasets prevState with
          | d :: _ => Normal d
          | [] => Throw TypeError
          end;
  let newData := data first in
  let full := (10 <=? length newLabels)%nat in
  let newLabels := if full then tail newLabels else newLabels in
  let newData := if full then tail newData else newData in
  let newLabels := (newLabels ++ [now])%list in
  heart_rate ← member (Some body) "heart_rate";
  red ← optMember heart_rate "red";
  let newData := (newData ++ [orElse red (JNum 0)])%list in
  Normal {| labels := newLabels; datasets := [ {| data := newData |} ] |}.

(** What [fetchData] does to the state once its request has settled.  The
    [catch] clause covers the awaits and the two setter calls; the updater
    runs later, while React renders, so an exception it throws is not caught
    there and propagates out of the render. *)
Definition fetchSettled (net : Completion Response) (now : string) (s : AppState)
  : Completion AppState :=
  match fetchJson net with
  | Normal body =>
      let s1 := setSensorData (Some body) s in
      chart ← heartRateUpdater body now (heartRateData s1);
      Normal (setHeartRateData chart s1)
  | Throw _ => Normal (setError (Some fetchErrorMessage) s)
  end.

(** The synchronous part of a call of [fetchData]: the request is sent. *)
Definition fetchData (w : World) : World :=
  {| ui := ui w; interval := interval w; timeouts := timeouts w;
     dialogs := dialogs w; requests := S (requests w) |}.

(** *** The monitoring loop *)

(** [Math.floor(Math.random() * 100)], where [scaled] is the value of
    [Math.random() * 100]. *)
Definition newMovementOf (scaled : Q) : Z := Qfloor scaled.

Definition drowningAlert : Dialog :=
  {| title := "DROWNING ALERT";
     message := "Unusual water movement detected! Please check the water immediately.";
     onPress := ClearAlert |}.

(** The function passed to [setInterval] by the monitoring effect. *)
Definition tick (scaled : Q) (w : World) : World :=
  let newMovement := newMovementOf scaled in
  let w1 := setState (setWaterMovement newMovement) w in
  let w2 := if 70 <? newMovement
            then alert drowningAlert (setState (setAlertActive true) w1)
            else w1 in
  fetchData w2.

(** ** Effects *)

(** The monitoring effect, with dependencies [[isMonitoring, isConnected]].
    When a render changes a dependency, React runs the cleanup of the
    previous run ([if (interval) clearInterval(interval)]) and then the
    effect again; [prev] is the state of the previous render. *)
Definition monitoringEffect (prev : AppState) (w : World) : World :=
  if Bool.eqb (isMonitoring prev) (isMonitoring (ui w))
     && Bool.eqb (isConnected prev) (isConnected (ui w))
  then w
  else
    let w1 := match interval w with
              | Some _ => clearInterval w
              | None => w
              end in
    if isMonitoring (ui w1) && isConnected (ui w1)
    then setInterval 3000 w1
    else w1.

(** The effect with dependency [[isConnected]]: fetch once on connecting. *)
Definition connectionEffect (prev : AppState) (w : World) : World :=
  if Bool.eqb (isConnected prev) (isConnected (ui w)) then w
  else if isConnected (ui w) then fetchData w else w.

(** The effects React runs after the render that follows a callback. *)
Definition commit (prev : AppState) (w : World) : World :=
  connectionEffect prev (monitoringEffect prev w).

(** ** Events *)

(** What the event loop can deliver to the component: a press on one of its
    buttons or on the button of the [i]-th open dialog, the [i]-th pending
    one-shot timer, the repeating timer (with the value of
    [Math.random() * 100] in that run), and the settling of a request (with
    the time string of the render that follows). *)
Inductive Event : Type :=
| PressScan
| PressDevice (device : Device)
| PressToggle
| PressDisconnect
| PressOk (i : nat)
| TimeoutFires (i : nat)
| IntervalFires (scaled : Q)
| FetchSettles (net : Completion Response) (now : string).

#[global] Instance Device_eq_dec : EqDecision Device.
Proof. solve_decision. Defined.

Definition runCallback (cb : Callback) (w : World) : World :=
  match cb with
  | ScanDone => scanDone w
  | ConnectDone device => connectDone device w
  end.

Definition fireTimeout (i : nat) (w : World) : World :=
  match timeouts w !! i with
  | Some t =>
      runCallback (callback t)
        {| ui := ui w; interval := interval w; timeouts := delete i (timeouts w);
           dialogs := dialogs w; requests := requests w |}
  | None => w
  end.

Definition pressOk (i : nat) (w : World) : World :=
  match dialogs w !! i with
  | Some d =>
      let w1 := {| ui := ui w; interval := interval w; timeouts := timeouts w;
                   dialogs := delete i (dialogs w); requests := requests w |} in
      match onPress d with
      | ClearAlert => setState (setAlertActive false) w1
      | NoHandler => w1
      end
  | None => w
  end.

Definition settle (net : Completion Response) (now : string) (w : World)
  : Completion World :=
  s ← fetchSettled net now (ui w);
  Normal {| ui := s; interval := interval w; timeouts := timeouts w;
            dialogs := dialogs w; requests := pred (requests w) |}.

(** The callback an event runs. *)
Definition handle (e : Event) (w : World) : Completion World :=
  match e with
  | PressScan => Normal (scanForDevices w)
  | PressDevice device => Normal (connectToDevice device w)
  | PressToggle => Normal (setState toggleMonitoring w)
  | PressDisconnect => Normal (setState disconnectDevice w)
  | PressOk i => Normal (pressOk i w)
  | TimeoutFires i => Normal (fireTimeout i w)
  | IntervalFires scaled => Normal (tick scaled w)
  | FetchSettles net now => settle net now w
  end.

(** One turn of the event loop: the callback, then the render, in which
    React runs the state updaters, and its effects.  [Throw] means that an
    updater threw while React rendered, and the component is gone.  What the
    render functions themselves return or throw for the new state is given
    by [render] and [renderSensorData] below. *)
Definition dispatch (e : Event) (w : World) : Completion World :=
  w' ← handle e w;
  Normal (commit (ui w) w').

(** When the event loop can deliver an event.  The connection screen is on
    display while [isConnected] is false, the monitoring screen while it is
    true; the scan button is disabled while [isScanning];
    [Math.random() * 100] is a number in [0, 100), see [scales_range].
    Dialogs are not taken to block the screen under them, which only adds
    runs. *)
Definition enabled (w : World) (e : Event) : bool :=
  match e with
  | PressScan => negb (isConnected (ui w)) && negb (isScanning (ui w))
  | PressDevice device =>
      negb (isConnected (ui w))
      && bool_decide (device ∈ availableDevices (ui w))
  | PressToggle => isConnected (ui w)
  | PressDisconnect => isConnected (ui w)
  | PressOk i => (i <? length (dialogs w))%nat
  | TimeoutFires i => (i <? length (timeouts w))%nat
  | IntervalFires scaled =>
      match interval w with
      | Some _ => Qle_bool 0 scaled && negb (Qle_bool 100 scaled)
      | None => false
      end
  | FetchSettles _ _ => (0 <? requests w)%nat
  end.

(** A run of the event loop: [None] when an event cannot be delivered or a
    render throws. *)
Fixpoint exec (es : list Event) (w : World) : option World :=
  match es with
  | [] => Some w
  | e :: es' =>
      if enabled w e then
        match dispatch e w with
        | Normal w' => exec es' w'
        | Throw _ => None
        end
      else None
  end.

(** ** Rendering the sensor display *)

(** What the readings branch of [renderSensorData] puts on screen: the values
    of the ten property chains it evaluates.  [temperatureShown] is the
    number that [toFixed(2)] formats, [None] when the chain is [undefined]. *)
Record Readings : Type := {
  redShown : JSValue;
  irShown : JSValue;
  gyroscopeShown : JSValue * JSValue * JSValue;
  accelerometerShown : JSValue * JSValue * JSValue;
  temperatureShown : option Q
}.

Inductive SensorView : Type :=
| ErrorView (msg : string)
| LoadingView
| ReadingsView (readings : Readings) (chart : ChartData).

(** [sensor?.part.key]: the chain stops at a [null] or [undefined]
    [sensor]; otherwise [sensor.part] is read and then its [key], which
    throws when [sensor.part] is [null] or [undefined]. *)
Definition axisOf (sensor : JSValue) (part key : string) : Completion JSValue :=
  match sensor with
  | None => Normal undefined
  | Some JNull => Normal undefined
  | _ => p ← member sensor part; member p key
  end.

(** [sensor?.temperature]. *)
Definition temperatureOf (sensor : JSValue) : Completion JSValue :=
  optMember sensor "temperature".

(** [t?.toFixed(2)]: only a number has the method; calling it on any other
    value that is not [null] or [undefined] throws. *)
Definition toFixed2 (t : JSValue) : Completion (option Q) :=
  match t with
  | None => Normal None
  | Some JNull => Normal None
  | Some (JNum q) => Normal (Some q)
  | Some _ => Throw TypeError
  end.

(** The property chains of the readings branch, in the order of the
    markup. *)
Definition readingsOf (sensorData : JSValue) : Completion Readings :=
  heart_rate ← member sensorData "heart_rate";
  red ← optMember heart_rate "red";
  ir ← optMember heart_rate "ir";
  mpu6050 ← member sensorData "mpu6050";
  gx ← axisOf mpu6050 "gyroscope" "x";
  gy ← axisOf mpu6050 "gyroscope" "y";
  gz ← axisOf mpu6050 "gyroscope" "z";
  ax ← axisOf mpu6050 "accelerometer" "x";
  ay ← axisOf mpu6050 "accelerometer" "y";
  az ← axisOf mpu6050 "accelerometer" "z";
  t ← temperatureOf mpu6050;
  temperature ← toFixed2 t;
  Normal {| redShown := red; irShown := ir;
            gyroscopeShown := (gx, gy, gz);
            accelerometerShown := (ax, ay, az);
            temperatureShown := temperature |}.

(** The part of [renderSensorData] after the test of [error]. *)
Definition sensorReadout (s : AppState) : Completion SensorView :=
  if negb (truthy (sensorData s)) then Normal LoadingView
  else
    readings ← readingsOf (sensorData s);
    Normal (ReadingsView readings (heartRateData s)).

(** [renderSensorData]: [if (error)] is the truthiness of a string or
    [null].  The function returns the elements it builds or throws while
    evaluating their property chains; what React and [LineChart] then do
    with the elements is outside it. *)
Definition renderSensorData (s : AppState) : Completion SensorView :=
  match error s with
  | Some msg =>
      if negb (String.eqb msg "") then Normal (ErrorView msg)
      else sensorReadout s
  | None => sensorReadout s
  end.

(** ** Vocabulary of the specification *)

(** The ways a request fails: [fetch] rejects, the status is not 2xx, or the
    body does not parse. *)
Inductive FetchFails : Completion Response -> Prop :=
| fails_network (e : Exception) : FetchFails (Throw e)
| fails_status (r : Response) : ok r = false -> FetchFails (Normal r)
| fails_parse (r : Response) (e : Exception) :
    ok r = true -> json r = Throw e -> FetchFails (Normal r).

(** A request that succeeded: a 2xx status and a body that parsed. *)
Record Fetched : Type := { got_status : Z; got_body : JSON; got_at : string }.

Definition responseOf (f : Fetched) : Completion Response :=
  Normal {| status := got_status f; json := Normal (got_body f) |}.

Definition succeeded (f : Fetched) : Prop :=
  200 <= got_status f <= 299 /\ got_body f <> JNull.

(** The reading [heart_rate.red] of a body, [undefined] when the body has
    none: the specification's view of [data.heart_rate?.red]. *)
Definition redOf (body : JSON) : JSValue :=
  match body with
  | JObj props =>
      match props !! "heart_rate" with
      | Some (JObj heart_rate) => heart_rate !! "red"
      | _ => undefined
      end
  | _ => undefined
  end.

(** The value charted for a body. *)
Definition pointOf (body : JSON) : JSON := orElse (redOf body) (JNum 0).

(** The body [{heart_rate: {red: 88}}]. *)
Definition reading88 : JSON :=
  JObj {[ "heart_rate" := JObj {[ "red" := JNum 88 ]} ]}.

(** The values of the chart's only series. *)
Definition series (c : ChartData) : list JSON :=
  match datasets c with
  | d :: _ => data d
  | [] => []
  end.

(** The last [n] elements of a list, in order. *)
Definition lastN {A : Type} (n : nat) (l : list A) : list A :=
  drop (length l - n) l.

(** The state after a sequence of requests has settled, oldest first. *)
Fixpoint afterFetches (fs : list Fetched) (s : AppState) : Completion AppState :=
  match fs with
  | [] => Normal s
  | f :: fs' =>
      s' ← fetchSettled (responseOf f) (got_at f) s;
      afterFetches fs' s'
  end.

Definition isToggle (e : Event) : bool :=
  match e with
  | PressToggle => true
  | _ => false
  end.

Definition isTick (e : Event) : bool :=
  match e with
  | IntervalFires _ => true
  | _ => false
  end.

(** The first mock device. *)
Definition poolDevice : Device :=
  {| Dev.id := "001"; Dev.name := "HydroGuard-Pool"; Dev.signalStrength := 90 |}.

(** A session that scans, connects to the first mock device, dismisses the
    two connection dialogs and starts monitoring. *)
Definition monitoringSession : list Event :=
  [ PressScan; TimeoutFires 0; PressDevice poolDevice; PressOk 0;
    TimeoutFires 0; PressOk 0; PressToggle ].

(** The same session followed by a tick whose value is 80. *)
Definition alarmedSession : list Event :=
  (monitoringSession ++ [ IntervalFires 80 ])%list.

(** Monitoring is off: the flag is false, no alert is raised and no
    repeating timer is registered. *)
Definition stopped (w : World) : Prop :=
  isMonitoring (ui w) = false /\ alertActive (ui w) = false /\ interval w = None.

(** The chart as every run leaves it: one series, as long as the labels, of
    at most ten points. *)
Definition windowed (c : ChartData) : Prop :=
  exists d : Dataset,
    datasets c = [d] /\
    length (data d) = length (labels c) /\
    (length (labels c) <= 10)%nat.

(** The world once [monitoringSession] has run: connected and monitoring,
    with the request sent on connecting still in flight. *)
Definition monitoringWorld : World :=
  {| ui := setIsMonitoring true
             (setIsConnected true (setAvailableDevices mockDevices initialState));
     interval := Some 3000; timeouts := []; dialogs := []; requests := 1 |}.

(** A successful request whose body is [{heart_rate: {red: v}}]. *)
Definition readingAt (t : string) (v : Z) : Fetched :=
  {| got_status := 200;
     got_body := JObj {[ "heart_rate" := JObj {[ "red" := JNum (inject_Z v) ]} ]};
     got_at := t |}.

Definition tenReadings : list Fetched :=
  [ readingAt "10:15:00" 60; readingAt "10:15:03" 61; readingAt "10:15:06" 62;
    readingAt "10:15:09" 63; readingAt "10:15:12" 64; readingAt "10:15:15" 65;
    readingAt "10:15:18" 66; readingAt "10:15:21" 67; readingAt "10:15:24" 68;
    readingAt "10:15:27" 69 ].

(** ** Rendering the screens *)

(** What [renderMonitoringScreen] puts on screen: the status indicator, the
    water movement (shown followed by a percent sign), the status line, the
    sensor display and the monitoring button.  [sensorView] is the outcome of
    the call of [renderSensorData]; when that call throws, the render of the
    screen throws with it. *)
Record MonitoringScreen : Type := {
  indicatorColor : string;
  indicatorText : string;
  movementShown : Z;
  statusColor : string;
  statusText : string;
  sensorView : Completion SensorView;
  toggleColor : string;
  toggleText : string
}.

Definition renderMonitoringScreen (s : AppState) : MonitoringScreen :=
  {| indicatorColor :=
       if isMonitoring s
       then if alertActive s then "#FF6B6B" else "#4CAF50"
       else "#CCCCCC";
     indicatorText :=
       if isMonitoring s
       then if alertActive s then "ALERT!" else "Monitoring"
       else "Not Active";
     movementShown := waterMovement s;
     statusColor :=
       if alertActive s then "#FF6B6B"
       else if isMonitoring s then "#4CAF50" else "#666";
     statusText :=
       if alertActive s then "DANGER"
       else if isMonitoring s then "SAFE" else "OFF";
     sensorView := renderSensorData s;
     toggleColor := if isMonitoring s then "#D32F2F" else "#4CAF50";
     toggleText :=
       if isMonitoring s then "STOP MONITORING" else "START MONITORING" |}.

(** A row of the device list: its key ([keyExtractor]), the name and signal
    strength it shows, and the device its press handler passes to
    [connectToDevice]. *)
Record DeviceRow : Type := {
  rowKey : string;
  rowName : string;
  rowSignal : Z;
  rowConnects : Device
}.

Definition renderItem (item : Device) : DeviceRow :=
  {| rowKey := Dev.id item; rowName := Dev.name item;
     rowSignal := Dev.signalStrength item; rowConnects := item |}.

(** The device list: the rows, or a placeholder text with or without the
    activity indicator. *)
Inductive DeviceList : Type :=
| DeviceRows (rows : list DeviceRow)
| NoDevices (text : string) (spinner : bool).

Record ConnectionScreen : Type := {
  deviceList : DeviceList;
  scanDisabled : bool;
  scanText : string;
  scanSpinner : bool
}.

Definition renderConnectionScreen (s : AppState) : ConnectionScreen :=
  {| deviceList :=
       if (0 <? length (availableDevices s))%nat
       then DeviceRows (map renderItem (availableDevices s))
       else NoDevices (if isScanning s then "Scanning for devices..."
                       else "No devices found")
                      (isScanning s);
     scanDisabled := isScanning s;
     scanText := if isScanning s then "Scanning..." else "Scan for Devices";
     scanSpinner := isScanning s |}.

Inductive Screen : Type :=
| MonitoringView (m : MonitoringScreen)
| ConnectionView (c : ConnectionScreen).

(** What [App] returns under its header. *)
Definition render (s : AppState) : Screen :=
  if isConnected s then MonitoringView (renderMonitoringScreen s)
  else ConnectionView (renderConnectionScreen s).

(** The presses a screen accepts: the scan button unless disabled, the rows
    of the device list, and the two buttons of the monitoring screen. *)
Definition offers (sc : Screen) (e : Event) : bool :=
  match sc, e with
  | ConnectionView c, PressScan => negb (scanDisabled c)
  | ConnectionView c, PressDevice device =>
      match deviceList c with
      | DeviceRows rows => bool_decide (device ∈ map rowConnects rows)
      | NoDevices _ _ => false
      end
  | MonitoringView _, PressToggle => true
  | MonitoringView _, PressDisconnect => true
  | _, _ => false
  end.

Definition isPress (e : Event) : bool :=
  match e with
  | PressScan | PressDevice _ | PressToggle | PressDisconnect => true
  | _ => false
  end.

(** ** Invariants of the event loop *)

(** The repeating timer is registered exactly while monitoring a connected
    device. *)
Definition synced (w : World) : Prop :=
  interval w =
  if isMonitoring (ui w) && isConnected (ui w) then Some 3000 else None.

Definition coherent (w : World) : Prop :=
  synced w /\
  (alertActive (ui w) = true -> isMonitoring (ui w) = true) /\
  (isMonitoring (ui w) = true -> isConnected (ui w) = true) /\
  0 <= waterMovement (ui w) <= 99.

Definition connects (t : Timer) : bool :=
  match callback t with
  | ConnectDone _ => true
  | ScanDone => false
  end.

(** The device list is empty or the mock list, and it is the mock list once
    a connection is made or under way. *)
Definition listed (w : World) : Prop :=
  (availableDevices (ui w) = [] \/ availableDevices (ui w) = mockDevices) /\
  (isConnected (ui w) || existsb connects (timeouts w) = true ->
   availableDevices (ui w) = mockDevices).

Definition requestSucceeds (net : Completion Response) : bool :=
  match fetchJson net with
  | Normal _ => true
  | Throw _ => false
  end.

Definition settlesRequest (e : Event) : bool :=
  match e with
  | FetchSettles _ _ => true
  | _ => false
  end.

Definition failedRequest (e : Event) : bool :=
  match e with
  | FetchSettles net _ => negb (requestSucceeds net)
  | _ => false
  end.

Definition firesTimeout (e : Event) : bool :=
  match e with
  | TimeoutFires _ => true
  | _ => false
  end.

(** A tick value above the threshold. *)
Definition alarming (scaled : Q) : bool := 70 <? newMovementOf scaled.

Definition connectingDialog (device : Device) : Dialog :=
  {| title := "Connecting";
     message := ("Connecting to " ++ Dev.name device ++ "...")%string;
     onPress := NoHandler |}.

Definition connectedDialog (device : Device) : Dialog :=
  {| title := "Connected";
     message := ("Successfully connected to " ++ Dev.name device)%string;
     onPress := NoHandler |}.

(** ** Sample worlds *)

Definition spaDevice : Device :=
  {| Dev.id := "002"; Dev.name := "HydroGuard-Spa"; Dev.signalStrength := 75 |}.

(** A session in which two rows are pressed before the first connection
    timer fires. *)
Definition hastySession : list Event :=
  [ PressScan; TimeoutFires 0; PressDevice poolDevice; PressDevice spaDevice;
    TimeoutFires 0 ].

(** The world once [hastySession] has run: connected, with the second
    connection timer still pending. *)
Definition hastyWorld : World :=
  {| ui := setIsConnected true (setAvailableDevices mockDevices initialState);
     interval := None;
     timeouts := [ {| delay := 1500; callback := ConnectDone spaDevice |} ];
     dialogs := [ connectingDialog poolDevice; connectingDialog spaDevice;
                  connectedDialog poolDevice ];
     requests := 1 |}.

(** A body whose [red] is a string: [{heart_rate: {red: "72"}}]. *)
Definition textReading : JSON :=
  JObj {[ "heart_rate" := JObj {[ "red" := JStr "72" ]} ]}.

(** [monitoringSession] followed by the settling of the request sent on
    connecting, with the body [{heart_rate: {red: 88}}]. *)
Definition fetchingSession : list Event :=
  (monitoringSession
   ++ [ FetchSettles (Normal {| status := 200; json := Normal reading88 |})
                     "10:15:00" ])%list.

(** The world once [alarmedSession] has run: monitoring, with the alert
    raised by a tick of 80 and its dialog open. *)
Definition alarmedWorld : World :=
  {| ui := setAlertActive true (setWaterMovement 80 (ui monitoringWorld));
     interval := Some 3000; timeouts := [];
     dialogs := [drowningAlert]; requests := 2 |}.

(** A body with a motion sensor entry that has no readings:
    [{mpu6050: {}}]. *)
Definition bareMotion : JSON := JObj {[ "mpu6050" := JObj ∅ ]}.

(** * Properties *)

(** ** Auxiliary facts *)

Lemma ui_commit (prev : AppState) (w : World) : ui (commit prev w) = ui w.
Proof.
  unfold commit, connectionEffect, monitoringEffect.
  repeat (case_match; simpl); reflexivity.
Qed.

Lemma commit_same_deps (prev : AppState) (w : World) :
  isMonitoring prev = isMonitoring (ui w) ->
  isConnected prev = isConnected (ui w) ->
  commit prev w = w.
Proof.
  intros Hm Hc. unfold commit, connectionEffect, monitoringEffect.
  rewrite Hm, Hc, !eqb_reflx. reflexivity.
Qed.

(** *** Binary64 arithmetic *)

Lemma binary64_below_one (r : Q) :
  binary64 r -> (r < 1)%Q -> (r <= 1 - (1 # 2 ^ 53))%Q.
Proof.
  intros (m & e & Hm & He & Hr) Hlt.
  destruct (Z.le_gt_cases 0 e) as [Hpos|Hneg].
  - assert (Hint : (r == inject_Z (m * 2 ^ e))%Q).
    { rewrite Hr, inject_Z_mult, Zpower_Qpower by lia. reflexivity. }
    rewrite Hint in Hlt |- *.
    change 1%Q with (inject_Z 1) in Hlt. rewrite <- Zlt_Qlt in Hlt.
    apply Qle_trans with (inject_Z 0); [rewrite <- Zle_Qle; lia | discriminate].
  - set (P := 2 ^ (- e)).
    assert (HP : 0 < P) by (apply Z.pow_pos_nonneg; lia).
    assert (Hpow : (2 ^ e == / inject_Z P)%Q).
    { replace e with (- - e) at 1 by lia.
      rewrite Qpower_opp. unfold P. rewrite Zpower_Qpower by lia. reflexivity. }
    assert (HP' : (0 < inject_Z P)%Q).
    { change 0%Q with (inject_Z 0). rewrite <- Zlt_Qlt. exact HP. }
    assert (Hprod : (r * inject_Z P == inject_Z m)%Q).
    { rewrite Hr, Hpow. field. intros H0. rewrite H0 in HP'. discriminate. }
    assert (HmP : m < P).
    { rewrite Zlt_Qlt, <- Hprod.
      rewrite <- (Qmult_1_l (inject_Z P)) at 2.
      by apply Qmult_lt_compat_r. }
    apply Qnot_lt_le. intros Hgt.
    apply (Qmult_lt_compat_r _ _ (inject_Z P) HP') in Hgt.
    rewrite Hprod in Hgt.
    assert (Hm1 : (inject_Z m <= inject_Z P - 1)%Q).
    { change 1%Q with (inject_Z 1). unfold Qminus.
      rewrite <- inject_Z_opp, <- inject_Z_plus, <- Zle_Qle. lia. }
    assert (Hm2 : (inject_Z m <= inject_Z (2 ^ 53) - 1)%Q).
    { change 1%Q with (inject_Z 1). unfold Qminus.
      rewrite <- inject_Z_opp, <- inject_Z_plus, <- Zle_Qle. lia. }
    set (c := (1 - (1 # 2 ^ 53))%Q) in *.
    assert (Hc : (c == 9007199254740991 # 9007199254740992)%Q) by reflexivity.
    change (inject_Z (2 ^ 53)) with 9007199254740992%Q in Hm2.
    rewrite Hc in Hgt.
    destruct (Qlt_le_dec 9007199254740992 (inject_Z P)) as [Hbig|Hsmall]; lra.
Qed.

Lemma binary64_zero : binary64 0.
Proof. exists 0, 0. split; [reflexivity|]. split; [lia | reflexivity]. Qed.

(** The largest binary64 value below 100. *)
Lemma binary64_pred_100 : binary64 (100 - (1 # 2 ^ 46)).
Proof.
  exists (100 * 2 ^ 46 - 1), (-46).
  split; [reflexivity|]. split; [lia | reflexivity].
Qed.

(** The product of a draw with 100, rounded to nearest, is below 100: the
    largest draw is [1 - 2^-53], and its product is nearer to the largest
    binary64 value below 100 than to 100. *)
Lemma scales_range (random scaled : Q) :
  scales random scaled -> (0 <= scaled)%Q /\ (scaled < 100)%Q.
Proof.
  intros (Hb & Hlo & Hhi & _ & Hnear).
  pose proof (binary64_below_one random Hb Hhi) as Hr.
  pose proof (Hnear 0%Q binary64_zero) as H0.
  pose proof (Hnear _ binary64_pred_100) as H1.
  assert (Hc : (1 - (1 # 2 ^ 53) == 9007199254740991 # 9007199254740992)%Q)
    by reflexivity.
  assert (Hd : (100 - (1 # 2 ^ 46) == 7036874417766399 # 70368744177664)%Q)
    by reflexivity.
  rewrite Hc in Hr. rewrite Hd in H1. split.
  - rewrite (Qabs_neg (0 - random * 100)) in H0 by lra.
    apply Qabs_Qle_condition in H0 as [H0 _]. lra.
  - apply Qnot_le_lt. intros Hge.
    pose proof (Qle_Qabs (scaled - random * 100)) as Hle.
    destruct (Qlt_le_dec ((7036874417766399 # 70368744177664) - random * 100) 0)
      as [Hneg|Hpos].
    + rewrite (Qabs_neg _ (Qlt_le_weak _ _ Hneg)) in H1. lra.
    + rewrite (Qabs_pos _ Hpos) in H1. lra.
Qed.

Lemma newMovementOf_range (scaled : Q) :
  (0 <= scaled)%Q -> (scaled < 100)%Q -> 0 <= newMovementOf scaled <= 99.
Proof.
  intros Hlo Hhi. unfold newMovementOf. split.
  - rewrite <- (Qfloor_Z 0). by apply Qfloor_resp_le.
  - assert (Qfloor scaled < 100); [|lia].
    rewrite Zlt_Qlt. eapply Qle_lt_trans; [apply Qfloor_le | exact Hhi].
Qed.

(** A draw of one half scales to 50 exactly. *)
Lemma scales_half : scales (1 # 2) 50.
Proof.
  split; [|split; [|split; [|split]]].
  - exists 1, (-1). split; [reflexivity|]. split; [lia | reflexivity].
  - unfold Qle; simpl; lia.
  - reflexivity.
  - exists 50, 0. split; [reflexivity|]. split; [lia | reflexivity].
  - intros d _.
    apply (Qle_trans _ 0); [unfold Qle; simpl; lia | apply Qabs_nonneg].
Qed.

(** *** The callbacks *)

Lemma ui_tick (scaled : Q) (w : World) :
  ui (tick scaled w) =
  let s := setWaterMovement (newMovementOf scaled) (ui w) in
  if 70 <? newMovementOf scaled then setAlertActive true s else s.
Proof. unfold tick. simpl. by case_match. Qed.

(** [body.heart_rate?.red] evaluates to [redOf body] unless [body] is
    [null]. *)
Lemma red_lookup (body : JSON) :
  body <> JNull ->
  (member (Some body) "heart_rate" ≫= fun h => optMember h "red")
  = Normal (redOf body).
Proof.
  intros Hnn. destruct body as [| | | | |props]; try done.
  simpl. destruct (props !! "heart_rate") as [[| | | | |h]|]; reflexivity.
Qed.

Lemma heartRateUpdater_spec (body : JSON) (now : string) (c : ChartData)
      (d : Dataset) (rest : list Dataset) :
  body <> JNull ->
  datasets c = d :: rest ->
  heartRateUpdater body now c =
  Normal {| labels := (if (10 <=? length (labels c))%nat
                       then tail (labels c) else labels c) ++ [now];
            datasets := [ {| data := (if (10 <=? length (labels c))%nat
                                      then tail (data d) else data d)
                                     ++ [pointOf body] |} ] |}.
Proof.
  intros Hnn Hd. unfold heartRateUpdater, pointOf. rewrite Hd.
  destruct body as [| | | | |props]; try done.
  simpl. destruct (props !! "heart_rate") as [[| | | | |h]|]; reflexivity.
Qed.

Lemma fetchJson_ok (st : Z) (body : JSON) :
  200 <= st <= 299 ->
  fetchJson (Normal {| status := st; json := Normal body |}) = Normal body.
Proof.
  intros Hst. unfold fetchJson, ok. simpl.
  destruct (Z.leb_spec 200 st), (Z.leb_spec st 299); simpl; (reflexivity || lia).
Qed.

Lemma fetchJson_fails (net : Completion Response) :
  FetchFails net -> exists e, fetchJson net = Throw e.
Proof.
  intros [e | r Hok | r e Hok Hjson]; unfold fetchJson; simpl.
  - by exists e.
  - rewrite Hok. simpl. by eexists.
  - rewrite Hok, Hjson. simpl. by exists e.
Qed.

Lemma bind_Normal {A B : Type} (a : A) (k : A -> Completion B) :
  (Normal a ≫= k) = k a.
Proof. reflexivity. Qed.

(** The state after a request has succeeded with a body that is not [null]. *)
Lemma fetchSettled_ok (st : Z) (body : JSON) (now : string) (s : AppState)
      (d : Dataset) (rest : list Dataset) :
  200 <= st <= 299 ->
  body <> JNull ->
  datasets (heartRateData s) = d :: rest ->
  fetchSettled (Normal {| status := st; json := Normal body |}) now s =
  Normal (setHeartRateData
            {| labels := (if (10 <=? length (labels (heartRateData s)))%nat
                          then tail (labels (heartRateData s))
                          else labels (heartRateData s)) ++ [now];
               datasets := [ {| data := (if (10 <=? length (labels (heartRateData s)))%nat
                                         then tail (data d) else data d)
                                        ++ [pointOf body] |} ] |}
            (setSensorData (Some body) s)).
Proof.
  intros Hst Hnn Hd. unfold fetchSettled.
  rewrite fetchJson_ok by exact Hst.
  change (heartRateData (setSensorData (Some body) s)) with (heartRateData s).
  rewrite (heartRateUpdater_spec body now _ d rest) by done.
  reflexivity.
Qed.

(** The bodies the component charts as 0: no [heart_rate], a [heart_rate]
    without [red], or a falsy [red] such as 0. *)
Lemma redOf_falsy_cases (props heart_rate : gmap string JSON) :
  (props !! "heart_rate" = None -> truthy (redOf (JObj props)) = false) /\
  (props !! "heart_rate" = Some (JObj heart_rate) ->
   heart_rate !! "red" = None -> truthy (redOf (JObj props)) = false) /\
  (props !! "heart_rate" = Some (JObj heart_rate) ->
   heart_rate !! "red" = Some (JNum 0) -> truthy (redOf (JObj props)) = false).
Proof.
  unfold redOf. repeat split.
  - by intros ->.
  - by intros -> ->.
  - by intros -> ->.
Qed.

(** ** The monitoring tick *)

(** C1, as amended: a tick stores the value it drew, and after it the alert
    flag is set exactly when that value is above 70 or the flag was already
    set before the tick, so that a tick never clears the flag; and whatever
    the event, a set flag is cleared only by the OK button of a drowning
    dialog, by toggling monitoring or by disconnecting. *)
Theorem tick_latches_alert (scaled : Q) (w : World) :
  (exists w', dispatch (IntervalFires scaled) w = Normal w' /\
     waterMovement (ui w') = newMovementOf scaled /\
     (alertActive (ui w') = true <->
      70 < waterMovement (ui w') \/ alertActive (ui w) = true)) /\
  forall (e : Event) (w' : World),
    dispatch e w = Normal w' ->
    alertActive (ui w) = true ->
    alertActive (ui w') = false ->
    e = PressToggle \/ e = PressDisconnect \/
    exists (i : nat) (d : Dialog),
      e = PressOk i /\ dialogs w !! i = Some d /\ onPress d = ClearAlert.
Proof.
  split.
  - eexists. split; [reflexivity|].
    rewrite ui_commit, ui_tick. simpl.
    destruct (Z.ltb_spec 70 (newMovementOf scaled)); simpl.
    + split; [reflexivity|]. split; auto.
    + split; [reflexivity|]. split; [auto|]. intros [?|?]; [lia | done].
  - intros e w' Hd Hon Hoff. unfold dispatch in Hd.
    destruct (handle e w) as [w1|] eqn:Hh; [|discriminate].
    injection Hd as <-. rewrite ui_commit in Hoff.
    destruct e as [| device | | | i | i | value | net now]; simpl in Hh.
    + injection Hh as <-. simpl in Hoff. congruence.
    + injection Hh as <-. simpl in Hoff. congruence.
    + by left.
    + right. by left.
    + injection Hh as <-. unfold pressOk in Hoff.
      destruct (dialogs w !! i) as [d|] eqn:Hi; [|congruence].
      destruct (onPress d) eqn:Hp; [simpl in Hoff; congruence|].
      right. right. by exists i, d.
    + injection Hh as <-. unfold fireTimeout in Hoff.
      destruct (timeouts w !! i) as [t|]; [|congruence].
      destruct (callback t); simpl in Hoff; congruence.
    + injection Hh as <-. rewrite ui_tick in Hoff. simpl in Hoff.
      destruct (70 <? newMovementOf value); simpl in Hoff; congruence.
    + unfold settle, fetchSettled in Hh.
      destruct (fetchJson net) as [body|].
      * destruct (heartRateUpdater _ _ _) as [c|]; [|discriminate].
        injection Hh as <-. simpl in Hoff. congruence.
      * injection Hh as <-. simpl in Hoff. congruence.
Qed.

(** C1 as stated fails: in a session where one tick drew 80 and the alert was
    not acknowledged, the next tick draws 50 and the alert flag is still set. *)
Lemma tick_alert_iff_counterexample :
  exists w w',
    exec alarmedSession initialWorld = Some w /\
    enabled w (IntervalFires 50) = true /\
    dispatch (IntervalFires 50) w = Normal w' /\
    waterMovement (ui w') = 50 /\
    ~ (alertActive (ui w') = true <-> 70 < waterMovement (ui w')).
Proof.
  eexists. eexists.
  split; [vm_compute; reflexivity|].
  split; [vm_compute; reflexivity|].
  split; [vm_compute; reflexivity|].
  split; [reflexivity|].
  simpl. intros [H _]. specialize (H eq_refl). lia.
Qed.

Lemma alarmedSession_runs : exec alarmedSession initialWorld = Some alarmedWorld.
Proof. vm_compute. reflexivity. Qed.

Lemma tick_latches_alert_witness :
  exists w',
    dispatch (PressOk 0) alarmedWorld = Normal w' /\
    alertActive (ui alarmedWorld) = true /\
    alertActive (ui w') = false /\
    (PressOk 0 = PressToggle \/ PressOk 0 = PressDisconnect \/
     exists (i : nat) (d : Dialog),
       PressOk 0 = PressOk i /\ dialogs alarmedWorld !! i = Some d /\
       onPress d = ClearAlert).
Proof.
  eexists. split; [reflexivity|]. split; [reflexivity|].
  split; [reflexivity|].
  exact (proj2 (tick_latches_alert 50 alarmedWorld) (PressOk 0) _
               eq_refl eq_refl eq_refl).
Defined.

(** C6: on a tick, whatever binary64 value in [0, 1) [Math.random()]
    returns, the product with 100 is a value the timer can deliver, and the
    tick stores its floor, an integer between 0 and 99. *)
Theorem tick_draws_percentage (random scaled : Q) (w : World) :
  scales random scaled ->
  (interval w <> None -> enabled w (IntervalFires scaled) = true) /\
  exists w', dispatch (IntervalFires scaled) w = Normal w' /\
    0 <= waterMovement (ui w') <= 99 /\
    (inject_Z (waterMovement (ui w')) <= scaled)%Q /\
    (scaled < inject_Z (waterMovement (ui w') + 1))%Q.
Proof.
  intros Hs. destruct (scales_range random scaled Hs) as [Hlo Hhi]. split.
  - intros Hi. simpl. destruct (interval w); [|done].
    apply andb_true_intro. split.
    + by apply Qle_bool_iff.
    + apply negb_true_iff, not_true_is_false. intros Hge.
      apply Qle_bool_iff in Hge. lra.
  - eexists. split; [reflexivity|].
    assert (Hw : waterMovement (ui (commit (ui w) (tick scaled w)))
                 = newMovementOf scaled).
    { rewrite ui_commit, ui_tick. simpl. by case_match. }
    rewrite Hw. split; [by apply newMovementOf_range|].
    split; [apply Qfloor_le | apply Qlt_floor].
Qed.

Lemma tick_draws_percentage_witness :
  scales (1 # 2) 50 /\
  enabled monitoringWorld (IntervalFires 50) = true /\
  exists w', dispatch (IntervalFires 50) monitoringWorld = Normal w' /\
    0 <= waterMovement (ui w') <= 99 /\
    (inject_Z (waterMovement (ui w')) <= 50)%Q /\
    (50 < inject_Z (waterMovement (ui w') + 1))%Q.
Proof.
  split; [exact scales_half|].
  destruct (tick_draws_percentage (1 # 2) 50 monitoringWorld scales_half)
    as [Hen Hrun].
  split; [apply Hen; discriminate | exact Hrun].
Defined.

(** ** Disconnecting and scanning *)

(** C7: in every state, disconnecting runs to completion and leaves the
    connection, the monitoring and the alert flags false. *)
Theorem disconnect_clears_flags (w : World) :
  exists w', dispatch PressDisconnect w = Normal w' /\
    ui w' = disconnectDevice (ui w) /\
    isConnected (ui w') = false /\
    isMonitoring (ui w') = false /\
    alertActive (ui w') = false.
Proof.
  eexists. split; [reflexivity|].
  rewrite ui_commit. simpl. auto.
Qed.

(** C8: pressing the scan button sets the scanning flag and registers one
    timer of 2000 ms; whenever that timer fires, in whatever state, the
    callback completes, the device list becomes the three mock devices 001,
    002 and 003, each with a name and a signal strength between 0 and 100,
    and the scanning flag is cleared. *)
Theorem scan_lists_mock_devices (w : World) :
  exists w1, dispatch PressScan w = Normal w1 /\
    isScanning (ui w1) = true /\
    timeouts w1 = (timeouts w ++ [ {| delay := 2000; callback := ScanDone |} ])%list /\
    (forall (w2 : World) (i : nat),
        timeouts w2 !! i = Some {| delay := 2000; callback := ScanDone |} ->
        enabled w2 (TimeoutFires i) = true /\
        exists w3, dispatch (TimeoutFires i) w2 = Normal w3 /\
          availableDevices (ui w3) = mockDevices /\
          isScanning (ui w3) = false /\
          timeouts w3 = delete i (timeouts w2)) /\
    map Dev.id mockDevices = ["001"; "002"; "003"] /\
    Forall (fun d => Dev.name d <> "" /\ 0 <= Dev.signalStrength d <= 100)
           mockDevices.
Proof.
  eexists. split; [reflexivity|].
  rewrite commit_same_deps by reflexivity.
  split; [reflexivity|]. split; [reflexivity|]. split; [|split].
  - intros w2 i Hi. split.
    + simpl. apply Nat.ltb_lt. by eapply lookup_lt_Some.
    + eexists. split; [reflexivity|].
      unfold fireTimeout. rewrite Hi. simpl.
      rewrite commit_same_deps by reflexivity. auto.
  - reflexivity.
  - repeat constructor; simpl; (discriminate || lia).
Qed.

Lemma scan_lists_mock_devices_witness :
  exists w1, dispatch PressScan initialWorld = Normal w1 /\
    timeouts w1 !! 0%nat = Some {| delay := 2000; callback := ScanDone |} /\
    enabled w1 (TimeoutFires 0) = true /\
    exists w3, dispatch (TimeoutFires 0) w1 = Normal w3 /\
      availableDevices (ui w3) = mockDevices /\
      isScanning (ui w3) = false /\
      timeouts w3 = delete 0%nat (timeouts w1).
Proof.
  destruct (scan_lists_mock_devices initialWorld)
    as (w1 & Hd & _ & Ht & Hfire & _).
  exists w1. split; [exact Hd|].
  assert (Hi : timeouts w1 !! 0%nat
               = Some {| delay := 2000; callback := ScanDone |}).
  { rewrite Ht. reflexivity. }
  split; [exact Hi|]. exact (Hfire w1 0%nat Hi).
Defined.

(** ** Fetching sensor data *)

(** C4: when a request fails (the network, a status outside 200-299, a body
    that does not parse), its settling completes, sets the error message and
    changes no other state cell, timer or dialog. *)
Theorem failed_fetch_sets_error_only
        (net : Completion Response) (now : string) (w : World) :
  FetchFails net ->
  exists w', dispatch (FetchSettles net now) w = Normal w' /\
    error (ui w') = Some fetchErrorMessage /\
    sensorData (ui w') = sensorData (ui w) /\
    heartRateData (ui w') = heartRateData (ui w) /\
    ui w' = setError (Some fetchErrorMessage) (ui w) /\
    interval w' = interval w /\
    timeouts w' = timeouts w /\
    dialogs w' = dialogs w.
Proof.
  intros Hfail. destruct (fetchJson_fails net Hfail) as [e He].
  unfold dispatch, handle, settle, fetchSettled. rewrite He. simpl.
  eexists. split; [reflexivity|].
  rewrite commit_same_deps by reflexivity. simpl. auto 10.
Qed.

Lemma failed_fetch_sets_error_only_witness :
  FetchFails (Normal {| status := 503; json := Normal reading88 |}) /\
  exists w',
    dispatch (FetchSettles (Normal {| status := 503; json := Normal reading88 |})
                           "10:15:00") initialWorld = Normal w' /\
    error (ui w') = Some fetchErrorMessage /\
    sensorData (ui w') = sensorData (ui initialWorld) /\
    heartRateData (ui w') = heartRateData (ui initialWorld) /\
    ui w' = setError (Some fetchErrorMessage) (ui initialWorld) /\
    interval w' = interval initialWorld /\
    timeouts w' = timeouts initialWorld /\
    dialogs w' = dialogs initialWorld.
Proof.
  assert (Hf : FetchFails (Normal {| status := 503; json := Normal reading88 |})).
  { apply fails_status. reflexivity. }
  split; [exact Hf|].
  exact (failed_fetch_sets_error_only _ "10:15:00" initialWorld Hf).
Defined.

(** C5: when a request succeeds with the body [{heart_rate: {red: 88}}], the
    snapshot becomes that body and the chart gains the one point (now, 88) at
    its end, after dropping its first point if it held 10 or more labels; no
    other state cell changes. *)
Theorem fetch_reading88_appends
        (st : Z) (now : string) (s : AppState) (d : Dataset) (rest : list Dataset) :
  200 <= st <= 299 ->
  datasets (heartRateData s) = d :: rest ->
  let full := (10 <=? length (labels (heartRateData s)))%nat in
  exists s',
    fetchSettled (Normal {| status := st; json := Normal reading88 |}) now s
    = Normal s' /\
    sensorData s' = Some reading88 /\
    labels (heartRateData s') =
      ((if full then tail (labels (heartRateData s))
        else labels (heartRateData s)) ++ [now])%list /\
    datasets (heartRateData s') =
      [ {| data := ((if full then tail (data d) else data d)
                    ++ [JNum 88])%list |} ] /\
    s' = setHeartRateData (heartRateData s') (setSensorData (Some reading88) s).
Proof.
  intros Hst Hd full.
  rewrite (fetchSettled_ok st reading88 now s d rest) by done.
  eexists. split; [reflexivity|]. auto.
Qed.

Lemma fetch_reading88_appends_witness :
  200 <= 200 <= 299 /\
  datasets (heartRateData initialState) = {| data := [] |} :: [] /\
  exists s',
    fetchSettled (Normal {| status := 200; json := Normal reading88 |})
                 "10:15:00" initialState = Normal s' /\
    sensorData s' = Some reading88 /\
    labels (heartRateData s') = ["10:15:00"] /\
    datasets (heartRateData s') = [ {| data := [JNum 88] |} ] /\
    s' = setHeartRateData (heartRateData s')
                          (setSensorData (Some reading88) initialState).
Proof.
  split; [lia|]. split; [reflexivity|].
  apply (fetch_reading88_appends 200 "10:15:00" initialState {| data := [] |} []).
  - lia.
  - reflexivity.
Defined.




(** ** The rolling window of the chart *)

Lemma lastN_length {A : Type} (n : nat) (l : list A) :
  (length (lastN n l) <= n)%nat.
Proof. unfold lastN. rewrite length_drop. lia. Qed.

Lemma lastN_short {A : Type} (n : nat) (l : list A) :
  (length l <= n)%nat -> lastN n l = l.
Proof.
  intros Hl. unfold lastN.
  replace (length l - n)%nat with 0%nat by lia. reflexivity.
Qed.

Lemma lastN_app_lastN {A : Type} (n : nat) (l r : list A) :
  lastN n (lastN n l ++ r) = lastN n (l ++ r).
Proof.
  unfold lastN. rewrite !length_app, length_drop, !skipn_app, length_drop.
  rewrite drop_drop. f_equal; f_equal; lia.
Qed.

(** Dropping the head of a full window and appending is taking the last ten. *)
Lemma shift_push {A : Type} (l : list A) (x : A) :
  (length l <= 10)%nat ->
  ((if (10 <=? length l)%nat then tail l else l) ++ [x])%list
  = lastN 10 (l ++ [x]).
Proof.
  intros Hl. unfold lastN. rewrite length_app.
  change (length [x]) with 1%nat.
  destruct (Nat.leb_spec 10 (length l)).
  - replace (length l + 1 - 10)%nat with 1%nat by lia.
    destruct l; [simpl in *; lia | reflexivity].
  - replace (length l + 1 - 10)%nat with 0%nat by lia. reflexivity.
Qed.

(** The same when fullness is read off a list of the same length, as the
    updater does for the data. *)
Lemma shift_push_by {A B : Type} (l : list A) (k : list B) (x : A) :
  length l = length k ->
  (length k <= 10)%nat ->
  ((if (10 <=? length k)%nat then tail l else l) ++ [x])%list
  = lastN 10 (l ++ [x]).
Proof. intros <- Hl. by apply shift_push. Qed.

Lemma afterFetches_window (fs : list Fetched) (s : AppState) (d : Dataset) :
  Forall succeeded fs ->
  datasets (heartRateData s) = [d] ->
  length (data d) = length (labels (heartRateData s)) ->
  (length (labels (heartRateData s)) <= 10)%nat ->
  exists s',
    afterFetches fs s = Normal s' /\
    labels (heartRateData s') =
      lastN 10 (labels (heartRateData s) ++ map got_at fs) /\
    datasets (heartRateData s') =
      [ {| data := lastN 10 (data d ++ map (fun f => pointOf (got_body f)) fs) |} ].
Proof.
  intros Hfs. revert s d.
  induction Hfs as [|f fs [Hst Hnn] _ IH]; intros s d Hd Hlen Hle.
  - exists s. simpl. rewrite !app_nil_r, !lastN_short by lia.
    split; [reflexivity|]. split; [reflexivity|]. rewrite Hd. by destruct d.
  - cbn [afterFetches]. unfold responseOf.
    rewrite (fetchSettled_ok _ _ _ s d []), bind_Normal by done.
    rewrite (shift_push (labels (heartRateData s))) by lia.
    rewrite (shift_push_by (data d)) by done.
    set (s1 := setHeartRateData _ _).
    destruct (IH s1 {| data := lastN 10 (data d ++ [pointOf (got_body f)]) |})
      as (s' & Hrun & Hl & Hds).
    + reflexivity.
    + cbn. unfold lastN. rewrite !length_drop, !length_app. simpl. lia.
    + cbn. apply lastN_length.
    + exists s'. split; [exact Hrun|]. subst s1.
      cbn [heartRateData setHeartRateData labels data] in Hl, Hds.
      rewrite Hl, Hds, !lastN_app_lastN, <- !app_assoc. auto.
Qed.

(** C2: after any sequence of successful requests the chart holds exactly
    the last ten points received, oldest first, in its labels and in its
    data, hence never more than ten; and a further successful request that
    finds ten points drops the first of them and appends its own at the
    end. *)
Theorem chart_is_rolling_window (fs : list Fetched) :
  Forall succeeded fs ->
  exists s',
    afterFetches fs initialState = Normal s' /\
    labels (heartRateData s') = lastN 10 (map got_at fs) /\
    datasets (heartRateData s') =
      [ {| data := lastN 10 (map (fun f => pointOf (got_body f)) fs) |} ] /\
    (length (labels (heartRateData s')) <= 10)%nat /\
    (length (series (heartRateData s')) <= 10)%nat /\
    forall f : Fetched,
      succeeded f ->
      length (labels (heartRateData s')) = 10%nat ->
      exists s'',
        fetchSettled (responseOf f) (got_at f) s' = Normal s'' /\
        labels (heartRateData s'') =
          (tail (labels (heartRateData s')) ++ [got_at f])%list /\
        series (heartRateData s'') =
          (tail (series (heartRateData s')) ++ [pointOf (got_body f)])%list.
Proof.
  intros Hfs.
  destruct (afterFetches_window fs initialState {| data := [] |} Hfs)
    as (s' & Hrun & Hl & Hds); [reflexivity | reflexivity | simpl; lia |].
  simpl in Hl, Hds. exists s'.
  split; [exact Hrun|]. split; [exact Hl|]. split; [exact Hds|].
  split; [rewrite Hl; apply lastN_length|].
  split; [unfold series; rewrite Hds; apply lastN_length|].
  intros f [Hst Hnn] Hfull. unfold responseOf.
  rewrite (fetchSettled_ok _ _ _ s' _ [] Hst Hnn Hds), Hfull.
  eexists. split; [reflexivity|].
  unfold series. rewrite Hds. auto.
Qed.

(** ** Runs of the event loop *)

(** What a settled request leaves alone. *)
Lemma fetchSettled_frame (net : Completion Response) (now : string)
      (s s' : AppState) :
  fetchSettled net now s = Normal s' ->
  isConnected s' = isConnected s /\
  waterMovement s' = waterMovement s /\
  isMonitoring s' = isMonitoring s /\
  alertActive s' = alertActive s /\
  isScanning s' = isScanning s /\
  availableDevices s' = availableDevices s /\
  (error s' = error s \/ error s' = Some fetchErrorMessage).
Proof.
  unfold fetchSettled. destruct (fetchJson net) as [body|e].
  - destruct (heartRateUpdater _ _ _) as [c|e]; [|discriminate].
    intros [= <-]. simpl. auto 10.
  - intros [= <-]. simpl. auto 10.
Qed.

Lemma interval_commit_off (prev : AppState) (w : World) :
  isMonitoring (ui w) = false ->
  interval w = None ->
  interval (commit prev w) = None.
Proof.
  intros Hm Hi. unfold commit, connectionEffect, monitoringEffect.
  rewrite Hi, Hm. repeat (case_match; simpl); auto.
Qed.

Lemma stopped_no_tick (w : World) (scaled : Q) :
  stopped w -> enabled w (IntervalFires scaled) = false.
Proof. intros (_ & _ & Hi). simpl. by rewrite Hi. Qed.

Lemma handle_stopped (e : Event) (w w' : World) :
  stopped w ->
  isToggle e = false ->
  isTick e = false ->
  handle e w = Normal w' ->
  isMonitoring (ui w') = false /\ alertActive (ui w') = false /\ interval w' = None.
Proof.
  intros (Hm & Ha & Hi) Htog Htick He.
  destruct e as [| device | | | i | i | scaled | net now];
    try discriminate; simpl in He.
  - injection He as <-. simpl. auto.
  - injection He as <-. simpl. auto.
  - injection He as <-. simpl. auto.
  - injection He as <-. unfold pressOk.
    destruct (dialogs w !! i) as [d|]; [|auto].
    destruct (onPress d); simpl; auto.
  - injection He as <-. unfold fireTimeout.
    destruct (timeouts w !! i) as [t|]; [|auto].
    destruct (callback t); simpl; auto.
  - unfold settle in He.
    destruct (fetchSettled net now (ui w)) as [s|] eqn:Hs; [|discriminate].
    injection He as <-. simpl.
    destruct (fetchSettled_frame _ _ _ _ Hs) as (_ & _ & -> & -> & _). auto.
Qed.

Lemma dispatch_stopped (e : Event) (w w' : World) :
  stopped w ->
  isToggle e = false ->
  enabled w e = true ->
  dispatch e w = Normal w' ->
  isTick e = false /\ stopped w'.
Proof.
  intros Hs Htog Hen Hd.
  assert (Htick : isTick e = false).
  { destruct e; try reflexivity.
    rewrite stopped_no_tick in Hen by exact Hs. discriminate. }
  split; [exact Htick|].
  unfold dispatch in Hd.
  destruct (handle e w) as [w1|] eqn:Hh; [|discriminate].
  rewrite bind_Normal in Hd. injection Hd as <-.
  destruct (handle_stopped e w w1 Hs Htog Htick Hh) as (Hm & Ha & Hi).
  unfold stopped. rewrite ui_commit.
  split; [exact Hm|]. split; [exact Ha|]. by apply interval_commit_off.
Qed.

Lemma exec_stopped (es : list Event) (w w' : World) :
  stopped w ->
  existsb isToggle es = false ->
  exec es w = Some w' ->
  existsb isTick es = false /\ stopped w'.
Proof.
  revert w. induction es as [|e es IH]; intros w Hs Htog Hex.
  - injection Hex as <-. auto.
  - simpl in Htog, Hex. apply orb_false_elim in Htog as [Hte Htes].
    destruct (enabled w e) eqn:Hen; [|discriminate].
    destruct (dispatch e w) as [w1|] eqn:Hd; [|discriminate].
    destruct (dispatch_stopped e w w1 Hs Hte Hen Hd) as [Htick Hs1].
    destruct (IH w1 Hs1 Htes Hex) as [Hticks Hs'].
    simpl. rewrite Htick, Hticks. auto.
Qed.

(** C3: toggling monitoring while it is on completes and leaves monitoring
    off, the alert flag cleared and no repeating timer registered; and in
    every run from there that does not toggle monitoring again, no tick
    occurs, the state after the run has no repeating timer, so no tick can be
    delivered next, and the alert flag is still cleared. *)
Theorem stop_halts_ticks (w : World) :
  isMonitoring (ui w) = true ->
  exists w1, dispatch PressToggle w = Normal w1 /\
    isMonitoring (ui w1) = false /\
    alertActive (ui w1) = false /\
    interval w1 = None /\
    forall (es : list Event) (w2 : World),
      exec es w1 = Some w2 ->
      existsb isToggle es = false ->
      existsb isTick es = false /\
      interval w2 = None /\
      alertActive (ui w2) = false /\
      forall scaled : Q, enabled w2 (IntervalFires scaled) = false.
Proof.
  intros Hon. eexists. split; [reflexivity|].
  assert (Hs : stopped (commit (ui w) (setState toggleMonitoring w))).
  { destruct w as [[c wm m a sc av sd er hr] iv ts ds rq].
    simpl in Hon. subst m.
    destruct a, c, iv; repeat split; reflexivity. }
  destruct Hs as (Hm & Ha & Hi).
  split; [exact Hm|]. split; [exact Ha|]. split; [exact Hi|].
  intros es w2 Hex Htog.
  destruct (exec_stopped es _ w2 (conj Hm (conj Ha Hi)) Htog Hex)
    as (Hticks & Hs2).
  split; [exact Hticks|]. destruct Hs2 as (Hm2 & Ha2 & Hi2).
  split; [exact Hi2|]. split; [exact Ha2|].
  intros scaled. by apply stopped_no_tick.
Qed.

(** Only the settling of a request touches the snapshot, the chart or the
    error message. *)
Lemma dispatch_sensor_frame (e : Event) (w w' : World) :
  dispatch e w = Normal w' ->
  (exists net now, e = FetchSettles net now /\
                   fetchSettled net now (ui w) = Normal (ui w')) \/
  (sensorData (ui w') = sensorData (ui w) /\
   error (ui w') = error (ui w) /\
   heartRateData (ui w') = heartRateData (ui w)).
Proof.
  unfold dispatch. intros Hd.
  destruct (handle e w) as [w1|] eqn:Hh; [|discriminate].
  rewrite bind_Normal in Hd. injection Hd as <-. rewrite ui_commit.
  destruct e as [| device | | | i | i | scaled | net now]; simpl in Hh.
  - injection Hh as <-. right. simpl. auto.
  - injection Hh as <-. right. simpl. auto.
  - injection Hh as <-. right. simpl. unfold toggleMonitoring.
    destruct (alertActive (ui w)); simpl; auto.
  - injection Hh as <-. right. simpl. auto.
  - injection Hh as <-. right. unfold pressOk.
    destruct (dialogs w !! i) as [d|]; [|auto].
    destruct (onPress d); simpl; auto.
  - injection Hh as <-. right. unfold fireTimeout.
    destruct (timeouts w !! i) as [t|]; [|auto].
    destruct (callback t); simpl; auto.
  - injection Hh as <-. right. rewrite ui_tick. simpl.
    destruct (70 <? newMovementOf scaled); simpl; auto.
  - left. exists net, now. split; [reflexivity|].
    unfold settle in Hh.
    destruct (fetchSettled net now (ui w)) as [s|] eqn:Hs; [|discriminate].
    by injection Hh as <-.
Qed.

(** The error message is never replaced by anything else. *)
Lemma dispatch_error (e : Event) (w w' : World) :
  dispatch e w = Normal w' ->
  error (ui w') = error (ui w) \/ error (ui w') = Some fetchErrorMessage.
Proof.
  intros Hd.
  destruct (dispatch_sensor_frame e w w' Hd)
    as [(net & now & _ & Hs) | (_ & He & _)]; [|by left].
  destruct (fetchSettled_frame _ _ _ _ Hs) as (_ & _ & _ & _ & _ & _ & H).
  exact H.
Qed.

Lemma exec_error (es : list Event) (w w' : World) :
  error (ui w) = Some fetchErrorMessage ->
  exec es w = Some w' ->
  error (ui w') = Some fetchErrorMessage.
Proof.
  revert w. induction es as [|e es IH]; intros w Herr Hex.
  - by injection Hex as <-.
  - simpl in Hex.
    destruct (enabled w e); [|discriminate].
    destruct (dispatch e w) as [w1|] eqn:Hd; [|discriminate].
    apply (IH w1); [|exact Hex].
    destruct (dispatch_error e w w1 Hd) as [H|H]; congruence.
Qed.

Lemma fetchSettled_windowed (net : Completion Response) (now : string)
      (s s' : AppState) :
  windowed (heartRateData s) ->
  fetchSettled net now s = Normal s' ->
  windowed (heartRateData s').
Proof.
  intros (d & Hd & Hlen & Hle). unfold fetchSettled.
  destruct (fetchJson net) as [body|e].
  - change (heartRateData (setSensorData (Some body) s)) with (heartRateData s).
    assert (Hcase : body = JNull \/ body <> JNull)
      by (destruct body; (by left) || (by right)).
    destruct Hcase as [->|Hnn].
    + unfold heartRateUpdater. rewrite Hd. discriminate.
    + rewrite (heartRateUpdater_spec body now _ d [] Hnn Hd), bind_Normal.
      rewrite (shift_push (labels (heartRateData s))) by lia.
      rewrite (shift_push_by (data d)) by done.
      intros [= <-]. eexists. split; [reflexivity|].
      cbn [heartRateData setHeartRateData labels data].
      split; [|apply lastN_length].
      unfold lastN. rewrite !length_drop, !length_app. simpl. lia.
  - intros [= <-]. exists d. auto.
Qed.

(** In every state a run can reach, the chart has one series, as long as
    the labels, of at most ten points. *)
Lemma exec_windowed (es : list Event) (w w' : World) :
  windowed (heartRateData (ui w)) ->
  exec es w = Some w' ->
  windowed (heartRateData (ui w')).
Proof.
  revert w. induction es as [|e es IH]; intros w Hw Hex.
  - by injection Hex as <-.
  - simpl in Hex.
    destruct (enabled w e); [|discriminate].
    destruct (dispatch e w) as [w1|] eqn:Hd; [|discriminate].
    apply (IH w1); [|exact Hex].
    destruct (dispatch_sensor_frame e w w1 Hd)
      as [(net & now & _ & Hs) | (_ & _ & Hc)].
    + by eapply fetchSettled_windowed.
    + by rewrite Hc.
Qed.

Lemma reachable_windowed (es : list Event) (w : World) :
  exec es initialWorld = Some w -> windowed (heartRateData (ui w)).
Proof.
  apply exec_windowed. exists {| data := [] |}.
  split; [reflexivity|]. split; [reflexivity|]. simpl. lia.
Qed.

Lemma delete_beyond {A : Type} (l : list A) (i : nat) :
  l !! i = None -> delete i l = l.
Proof.
  revert i. induction l as [|x l IH]; intros [|i] Hi; try done.
  simpl in *. f_equal. by apply IH.
Qed.

(** No callback cancels a one-shot timer: a pending timer leaves the list
    only by firing. *)
Lemma timeouts_only_fire (e : Event) (w w' : World) :
  dispatch e w = Normal w' ->
  exists added : list Timer,
    timeouts w' =
    (match e with
     | TimeoutFires i => delete i (timeouts w)
     | _ => timeouts w
     end ++ added)%list.
Proof.
  unfold dispatch. intros Hd.
  destruct (handle e w) as [w1|] eqn:Hh; [|discriminate].
  rewrite bind_Normal in Hd. injection Hd as <-.
  assert (Hc : timeouts (commit (ui w) w1) = timeouts w1).
  { unfold commit, connectionEffect, monitoringEffect.
    repeat (case_match; simpl); reflexivity. }
  rewrite Hc.
  destruct e as [| device | | | i | i | scaled | net now]; simpl in Hh.
  - injection Hh as <-. by eexists.
  - injection Hh as <-. by eexists.
  - injection Hh as <-. exists []. by rewrite app_nil_r.
  - injection Hh as <-. exists []. by rewrite app_nil_r.
  - injection Hh as <-. exists []. rewrite app_nil_r. unfold pressOk.
    destruct (dialogs w !! i) as [d|]; [|done]. by destruct (onPress d).
  - injection Hh as <-. exists []. rewrite app_nil_r. unfold fireTimeout.
    destruct (timeouts w !! i) as [t|] eqn:Ht.
    + by destruct (callback t).
    + symmetry. by apply delete_beyond.
  - injection Hh as <-. exists []. rewrite app_nil_r. unfold tick.
    by destruct (70 <? newMovementOf scaled).
  - unfold settle in Hh.
    destruct (fetchSettled net now (ui w)) as [s|]; [|discriminate].
    injection Hh as <-. exists []. by rewrite app_nil_r.
Qed.

(** C10: once a failed request has set the error message, the message is
    still set after every run of the event loop, whatever the events
    (successful requests, toggling monitoring, disconnecting, ...), and as
    long as it is set the sensor display is the error message, whatever
    readings have arrived. *)
Theorem error_message_sticks
        (net : Completion Response) (now : string) (w : World) :
  FetchFails net ->
  exists w1, dispatch (FetchSettles net now) w = Normal w1 /\
    error (ui w1) = Some fetchErrorMessage /\
    forall (es : list Event) (w2 : World),
      exec es w1 = Some w2 ->
      error (ui w2) = Some fetchErrorMessage /\
      renderSensorData (ui w2) = Normal (ErrorView fetchErrorMessage).
Proof.
  intros Hfail. destruct (fetchJson_fails net Hfail) as [e He].
  unfold dispatch, handle, settle, fetchSettled. rewrite He.
  eexists. split; [reflexivity|].
  rewrite ui_commit. split; [reflexivity|].
  intros es w2 Hex.
  assert (Herr : error (ui w2) = Some fetchErrorMessage).
  { eapply exec_error; [|exact Hex]. by rewrite ui_commit. }
  split; [exact Herr|]. unfold renderSensorData. by rewrite Herr.
Qed.

(** ** Concrete runs *)

Lemma monitoringSession_runs :
  exec monitoringSession initialWorld = Some monitoringWorld.
Proof. vm_compute. reflexivity. Qed.

Lemma tenReadings_succeeded : Forall succeeded tenReadings.
Proof. repeat constructor; simpl; (lia || discriminate). Qed.

Lemma chart_is_rolling_window_witness :
  Forall succeeded tenReadings /\
  exists s',
    afterFetches tenReadings initialState = Normal s' /\
    length (labels (heartRateData s')) = 10%nat /\
    succeeded (readingAt "10:15:30" 70) /\
    exists s'',
      fetchSettled (responseOf (readingAt "10:15:30" 70)) "10:15:30" s'
      = Normal s'' /\
      labels (heartRateData s'') =
        [ "10:15:03"; "10:15:06"; "10:15:09"; "10:15:12"; "10:15:15";
          "10:15:18"; "10:15:21"; "10:15:24"; "10:15:27"; "10:15:30" ] /\
      series (heartRateData s'') =
        [ JNum 61; JNum 62; JNum 63; JNum 64; JNum 65;
          JNum 66; JNum 67; JNum 68; JNum 69; JNum 70 ].
Proof.
  split; [exact tenReadings_succeeded|].
  destruct (chart_is_rolling_window tenReadings tenReadings_succeeded)
    as (s' & Hrun & Hl & Hds & _ & _ & Hnext).
  exists s'. split; [exact Hrun|].
  assert (Hfull : length (labels (heartRateData s')) = 10%nat).
  { rewrite Hl. reflexivity. }
  split; [exact Hfull|].
  assert (Hok : succeeded (readingAt "10:15:30" 70)).
  { split; [simpl; lia | discriminate]. }
  split; [exact Hok|].
  destruct (Hnext (readingAt "10:15:30" 70) Hok Hfull)
    as (s'' & Hset & Hl' & Hs').
  exists s''. split; [exact Hset|].
  rewrite Hl', Hs', Hl. unfold series. rewrite Hds.
  split; reflexivity.
Defined.

Lemma stop_halts_ticks_witness :
  isMonitoring (ui monitoringWorld) = true /\
  exists w1, dispatch PressToggle monitoringWorld = Normal w1 /\
    isMonitoring (ui w1) = false /\
    alertActive (ui w1) = false /\
    interval w1 = None /\
    exists w2,
      exec [ FetchSettles (Throw NetworkError) "10:15:00";
             PressDisconnect; PressScan ] w1 = Some w2 /\
      interval w2 = None /\
      alertActive (ui w2) = false /\
      forall scaled : Q, enabled w2 (IntervalFires scaled) = false.
Proof.
  split; [reflexivity|].
  destruct (stop_halts_ticks monitoringWorld eq_refl)
    as (w1 & Hd & Hm & Ha & Hi & Hruns).
  exists w1. split; [exact Hd|]. split; [exact Hm|].
  split; [exact Ha|]. split; [exact Hi|].
  injection Hd as <-.
  set (es := [ FetchSettles (Throw NetworkError) "10:15:00";
               PressDisconnect; PressScan ]).
  destruct (exec es _) as [w2|] eqn:Hex; [|vm_compute in Hex; discriminate].
  exists w2. split; [reflexivity|].
  destruct (Hruns es w2 Hex eq_refl) as (_ & Hi2 & Ha2 & Hno). auto.
Defined.

Lemma error_message_sticks_witness :
  FetchFails (Throw NetworkError) /\
  exists w1,
    dispatch (FetchSettles (Throw NetworkError) "10:15:00") monitoringWorld
    = Normal w1 /\
    error (ui w1) = Some fetchErrorMessage /\
    exists w2,
      exec [ IntervalFires 50;
             FetchSettles (responseOf (readingAt "10:15:03" 88)) "10:15:03";
             PressToggle; PressDisconnect ] w1 = Some w2 /\
      sensorData (ui w2) = Some reading88 /\
      error (ui w2) = Some fetchErrorMessage /\
      renderSensorData (ui w2) = Normal (ErrorView fetchErrorMessage).
Proof.
  assert (Hf : FetchFails (Throw NetworkError)) by constructor.
  split; [exact Hf|].
  destruct (error_message_sticks (Throw NetworkError) "10:15:00"
                                 monitoringWorld Hf)
    as (w1 & Hd & Herr & Hruns).
  exists w1. split; [exact Hd|]. split; [exact Herr|].
  injection Hd as <-.
  set (es := [ IntervalFires 50;
               FetchSettles (responseOf (readingAt "10:15:03" 88)) "10:15:03";
               PressToggle; PressDisconnect ]).
  destruct (exec es _) as [w2|] eqn:Hex; [|vm_compute in Hex; discriminate].
  exists w2. split; [reflexivity|].
  split; [|exact (Hruns es w2 Hex)].
  vm_compute in Hex. injection Hex as <-. reflexivity.
Defined.

(** * Further properties *)

(** ** What the effects change *)

Lemma interval_commit (prev : AppState) (w : World) :
  interval (commit prev w) =
  if Bool.eqb (isMonitoring prev) (isMonitoring (ui w))
     && Bool.eqb (isConnected prev) (isConnected (ui w))
  then interval w
  else if isMonitoring (ui w) && isConnected (ui w) then Some 3000 else None.
Proof.
  destruct prev as [pc ? pm ? ? ? ? ? ?].
  destruct w as [[c ? m ? ? ? ? ? ?] iv ts ds rq].
  destruct pc, pm, c, m, iv; reflexivity.
Qed.

Lemma timeouts_commit (prev : AppState) (w : World) :
  timeouts (commit prev w) = timeouts w.
Proof.
  unfold commit, connectionEffect, monitoringEffect.
  repeat (case_match; simpl); reflexivity.
Qed.

Lemma dialogs_commit (prev : AppState) (w : World) :
  dialogs (commit prev w) = dialogs w.
Proof.
  unfold commit, connectionEffect, monitoringEffect.
  repeat (case_match; simpl); reflexivity.
Qed.

Lemma requests_commit (prev : AppState) (w : World) :
  requests (commit prev w) =
  if negb (isConnected prev) && isConnected (ui w)
  then S (requests w) else requests w.
Proof.
  destruct prev as [pc ? pm ? ? ? ? ? ?].
  destruct w as [[c ? m ? ? ? ? ? ?] iv ts ds rq].
  destruct pc, pm, c, m, iv; reflexivity.
Qed.

(** No callback touches the repeating timer; only the effect does. *)
Lemma interval_handle (e : Event) (w w1 : World) :
  handle e w = Normal w1 -> interval w1 = interval w.
Proof.
  destruct e as [| device | | | i | i | scaled | net now]; simpl; intros Hh.
  - by injection Hh as <-.
  - by injection Hh as <-.
  - by injection Hh as <-.
  - by injection Hh as <-.
  - injection Hh as <-. unfold pressOk.
    destruct (dialogs w !! i) as [d|]; [|done]. by destruct (onPress d).
  - injection Hh as <-. unfold fireTimeout.
    destruct (timeouts w !! i) as [t|]; [|done]. by destruct (callback t).
  - injection Hh as <-. unfold tick. by destruct (70 <? newMovementOf scaled).
  - unfold settle in Hh.
    destruct (fetchSettled net now (ui w)) as [s|]; [|discriminate].
    by injection Hh as <-.
Qed.

Lemma enabled_tick_range (w : World) (scaled : Q) :
  enabled w (IntervalFires scaled) = true ->
  interval w <> None /\ 0 <= newMovementOf scaled <= 99.
Proof.
  simpl. destruct (interval w); [|discriminate].
  intros [Hlo Hhi]%andb_true_iff. split; [discriminate|].
  apply newMovementOf_range.
  - by apply Qle_bool_iff.
  - apply Qnot_le_lt. intros Hge. apply Qle_bool_iff in Hge.
    rewrite Hge in Hhi. discriminate.
Qed.

(** ** The invariant of the flags and the timer *)

Lemma dispatch_coherent (e : Event) (w w' : World) :
  coherent w ->
  enabled w e = true ->
  dispatch e w = Normal w' ->
  coherent w'.
Proof.
  intros (Hsync & Ha & Hm & Hwm) Hen Hd. unfold dispatch in Hd.
  destruct (handle e w) as [w1|] eqn:Hh; [|discriminate].
  rewrite bind_Normal in Hd. injection Hd as <-.
  pose proof (interval_handle e w w1 Hh) as Hi.
  pose proof (enabled_tick_range w) as Htick.
  unfold coherent, synced in *.
  rewrite interval_commit, ui_commit, Hi, Hsync. clear Hi.
  destruct w as [[c wm m a sc av sd er hr] iv ts ds rq].
  destruct e as [| device | | | i | i | scaled | net now];
    simpl in Hh, Hen, Ha, Hm, Hwm, Hsync.
  - injection Hh as <-. simpl.
    destruct c, m, a; simpl in *; intuition (try congruence; try lia).
  - injection Hh as <-. simpl.
    destruct c, m, a; simpl in *; intuition (try congruence; try lia).
  - injection Hh as <-. simpl.
    destruct c, m, a; simpl in *; intuition (try congruence; try lia).
  - injection Hh as <-. simpl.
    destruct c, m, a; simpl in *; intuition (try congruence; try lia).
  - injection Hh as <-. unfold pressOk. simpl.
    destruct (ds !! i) as [d|]; [destruct (onPress d)|]; simpl;
      destruct c, m, a; simpl in *; intuition (try congruence; try lia).
  - injection Hh as <-. unfold fireTimeout. simpl.
    destruct (ts !! i) as [t|]; [destruct (callback t)|]; simpl;
      destruct c, m, a; simpl in *; intuition (try congruence; try lia).
  - injection Hh as <-.
    destruct (Htick scaled Hen) as [_ Hr]. clear Htick.
    rewrite ui_tick. simpl. simpl in Hen.
    destruct (70 <? newMovementOf scaled); simpl;
      destruct c, m, a, iv; simpl in *;
      intuition (try congruence; try lia).
  - unfold settle in Hh. simpl in Hh.
    destruct (fetchSettled net now _) as [s|] eqn:Hs; [|discriminate].
    injection Hh as <-. simpl.
    destruct (fetchSettled_frame _ _ _ _ Hs) as (Hc' & Hw' & Hm' & Ha' & _).
    simpl in Hc', Hw', Hm', Ha'. rewrite Hc', Hw', Hm', Ha'.
    destruct c, m, a; simpl in *; intuition (try congruence; try lia).
Qed.

Lemma exec_coherent (es : list Event) (w w' : World) :
  coherent w -> exec es w = Some w' -> coherent w'.
Proof.
  revert w. induction es as [|e es IH]; intros w Hw Hex.
  - by injection Hex as <-.
  - simpl in Hex.
    destruct (enabled w e) eqn:Hen; [|discriminate].
    destruct (dispatch e w) as [w1|] eqn:Hd; [|discriminate].
    apply (IH w1); [|exact Hex]. by eapply dispatch_coherent.
Qed.

Lemma initial_coherent : coherent initialWorld.
Proof. repeat split; simpl; (discriminate || lia). Qed.

(** ** The invariant of the device list *)

Lemma existsb_lookup {A : Type} (f : A -> bool) (l : list A) (i : nat) (x : A) :
  l !! i = Some x -> f x = true -> existsb f l = true.
Proof.
  revert i. induction l as [|y l IH]; intros [|i] Hi Hx; try done.
  - injection Hi as ->. simpl. by rewrite Hx.
  - simpl. rewrite (IH i Hi Hx). apply orb_true_r.
Qed.

Lemma timeouts_handle (e : Event) (w w1 : World) :
  handle e w = Normal w1 ->
  timeouts w1 =
  match e with
  | PressScan => timeouts w ++ [ {| delay := 2000; callback := ScanDone |} ]
  | PressDevice device =>
      timeouts w ++ [ {| delay := 1500; callback := ConnectDone device |} ]
  | TimeoutFires i => delete i (timeouts w)
  | _ => timeouts w
  end%list.
Proof.
  destruct e as [| device | | | i | i | scaled | net now]; simpl; intros Hh.
  - by injection Hh as <-.
  - by injection Hh as <-.
  - by injection Hh as <-.
  - by injection Hh as <-.
  - injection Hh as <-. unfold pressOk.
    destruct (dialogs w !! i) as [d|]; [|done]. by destruct (onPress d).
  - injection Hh as <-. unfold fireTimeout.
    destruct (timeouts w !! i) as [t|] eqn:Ht.
    + by destruct (callback t).
    + symmetry. by apply delete_beyond.
  - injection Hh as <-. unfold tick. by destruct (70 <? newMovementOf scaled).
  - unfold settle in Hh.
    destruct (fetchSettled net now (ui w)) as [s|]; [|discriminate].
    by injection Hh as <-.
Qed.

Lemma dispatch_listed (e : Event) (w w' : World) :
  listed w ->
  enabled w e = true ->
  dispatch e w = Normal w' ->
  listed w'.
Proof.
  intros [Hav Hcon] Hen Hd. unfold dispatch in Hd.
  destruct (handle e w) as [w1|] eqn:Hh; [|discriminate].
  rewrite bind_Normal in Hd. injection Hd as <-.
  pose proof (timeouts_handle e w w1 Hh) as Ht.
  unfold listed. rewrite ui_commit, timeouts_commit, Ht. clear Ht.
  destruct e as [| device | | | i | i | scaled | net now]; simpl in Hh, Hen.
  - injection Hh as <-. simpl. split; [exact Hav|].
    rewrite existsb_app. simpl. by rewrite orb_false_r.
  - injection Hh as <-. simpl.
    apply andb_true_iff in Hen as [_ Hin]. apply bool_decide_eq_true in Hin.
    assert (Hm : availableDevices (ui w) = mockDevices).
    { destruct Hav as [Hnil|Hm]; [|exact Hm].
      rewrite Hnil in Hin. by apply elem_of_nil in Hin. }
    auto.
  - injection Hh as <-. simpl. unfold toggleMonitoring.
    destruct (alertActive (ui w)); simpl; auto.
  - injection Hh as <-. simpl. split; [exact Hav|].
    intros H. apply Hcon. rewrite H. apply orb_true_r.
  - injection Hh as <-. unfold pressOk.
    destruct (dialogs w !! i) as [d|]; [destruct (onPress d)|]; simpl; auto.
  - injection Hh as <-. unfold fireTimeout.
    destruct (timeouts w !! i) as [t|] eqn:Hi.
    + destruct (callback t) as [|device] eqn:Hcb; simpl; [auto|].
      assert (Hm : availableDevices (ui w) = mockDevices).
      { apply Hcon. rewrite (existsb_lookup connects _ i t Hi).
        - apply orb_true_r.
        - unfold connects. by rewrite Hcb. }
      auto.
    + rewrite delete_beyond by exact Hi. auto.
  - injection Hh as <-. rewrite ui_tick. simpl.
    destruct (70 <? newMovementOf scaled); simpl; auto.
  - unfold settle in Hh.
    destruct (fetchSettled net now (ui w)) as [s|] eqn:Hs; [|discriminate].
    injection Hh as <-. simpl.
    destruct (fetchSettled_frame _ _ _ _ Hs) as (-> & _ & _ & _ & _ & -> & _).
    auto.
Qed.

Lemma exec_listed (es : list Event) (w w' : World) :
  listed w -> exec es w = Some w' -> listed w'.
Proof.
  revert w. induction es as [|e es IH]; intros w Hw Hex.
  - by injection Hex as <-.
  - simpl in Hex.
    destruct (enabled w e) eqn:Hen; [|discriminate].
    destruct (dispatch e w) as [w1|] eqn:Hd; [|discriminate].
    apply (IH w1); [|exact Hex]. by eapply dispatch_listed.
Qed.

Lemma initial_listed : listed initialWorld.
Proof. split; [by left | discriminate]. Qed.

(** ** Connecting *)



(** X2: when a connection timer fires while the component is already
    connected (a second row was pressed before the first timer fired), no
    state cell, timer or request count changes; only another "Connected"
    dialog opens. *)
Theorem second_connection_only_alerts (device : Device) (w : World) (i : nat) :
  isConnected (ui w) = true ->
  timeouts w !! i = Some {| delay := 1500; callback := ConnectDone device |} ->
  exists w', dispatch (TimeoutFires i) w = Normal w' /\
    ui w' = ui w /\
    interval w' = interval w /\
    requests w' = requests w /\
    dialogs w' = (dialogs w ++ [connectedDialog device])%list.
Proof.
  intros Hc Hi. eexists. split; [reflexivity|].
  rewrite ui_commit, interval_commit, requests_commit, dialogs_commit.
  unfold handle, fireTimeout. rewrite Hi. simpl. rewrite Hc, !eqb_reflx.
  simpl. repeat split.
  destruct (ui w) as [c wm m a sc av sd er hr]. simpl in Hc. by subst c.
Qed.

Lemma hastySession_runs : exec hastySession initialWorld = Some hastyWorld.
Proof. vm_compute. reflexivity. Qed.

Lemma second_connection_only_alerts_witness :
  isConnected (ui hastyWorld) = true /\
  timeouts hastyWorld !! 0%nat
  = Some {| delay := 1500; callback := ConnectDone spaDevice |} /\
  exists w', dispatch (TimeoutFires 0) hastyWorld = Normal w' /\
    ui w' = ui hastyWorld /\
    interval w' = interval hastyWorld /\
    requests w' = requests hastyWorld /\
    dialogs w' = (dialogs hastyWorld ++ [connectedDialog spaDevice])%list.
Proof.
  split; [reflexivity|]. split; [reflexivity|].
  exact (second_connection_only_alerts spaDevice hastyWorld 0 eq_refl eq_refl).
Defined.

(** ** The monitoring timer and the flags *)

(** X3: in every state a run reaches from the initial one, the repeating
    timer is registered, with period 3000 ms, exactly while the monitoring
    flag is set. *)
Theorem timer_follows_monitoring (es : list Event) (w : World) :
  exec es initialWorld = Some w ->
  interval w = if isMonitoring (ui w) then Some 3000 else None.
Proof.
  intros Hex.
  destruct (exec_coherent es _ w initial_coherent Hex) as (Hs & _ & Hm & _).
  unfold synced in Hs. rewrite Hs.
  destruct (isMonitoring (ui w)); [|reflexivity].
  by rewrite (Hm eq_refl).
Qed.

Lemma timer_follows_monitoring_witness :
  exec monitoringSession initialWorld = Some monitoringWorld /\
  interval monitoringWorld
  = if isMonitoring (ui monitoringWorld) then Some 3000 else None.
Proof.
  split; [exact monitoringSession_runs|].
  exact (timer_follows_monitoring monitoringSession monitoringWorld
                                  monitoringSession_runs).
Defined.

(** X4: in every state a run reaches from the initial one, a raised alert
    flag implies that monitoring is on, and monitoring on implies that the
    component is connected. *)
Theorem alert_only_while_monitoring (es : list Event) (w : World) :
  exec es initialWorld = Some w ->
  (alertActive (ui w) = true -> isMonitoring (ui w) = true) /\
  (isMonitoring (ui w) = true -> isConnected (ui w) = true).
Proof.
  intros Hex.
  destruct (exec_coherent es _ w initial_coherent Hex) as (_ & Ha & Hm & _).
  auto.
Qed.

Lemma alert_only_while_monitoring_witness :
  exists w, exec alarmedSession initialWorld = Some w /\
    alertActive (ui w) = true /\
    isMonitoring (ui w) = true /\
    isConnected (ui w) = true.
Proof.
  destruct (exec alarmedSession initialWorld) as [w|] eqn:Hex;
    [|vm_compute in Hex; discriminate].
  exists w. split; [reflexivity|].
  destruct (alert_only_while_monitoring alarmedSession w Hex) as [Ha Hm].
  assert (Hal : alertActive (ui w) = true).
  { vm_compute in Hex. injection Hex as <-. reflexivity. }
  split; [exact Hal|]. split; [exact (Ha Hal) | exact (Hm (Ha Hal))].
Defined.

(** X5: toggling monitoring while it is off sets the monitoring flag and
    leaves the alert flag cleared; the repeating timer of 3000 ms is
    registered, and ticks can be delivered, exactly if the component is
    connected. *)
Theorem start_registers_interval (w : World) :
  isMonitoring (ui w) = false ->
  exists w1, dispatch PressToggle w = Normal w1 /\
    isMonitoring (ui w1) = true /\
    alertActive (ui w1) = false /\
    interval w1 = (if isConnected (ui w) then Some 3000 else None) /\
    forall scaled : Q,
      (0 <= scaled)%Q -> (scaled < 100)%Q ->
      enabled w1 (IntervalFires scaled) = isConnected (ui w).
Proof.
  intros Hoff. eexists. split; [reflexivity|].
  assert (H : isMonitoring (ui (commit (ui w) (setState toggleMonitoring w))) = true
              /\ alertActive (ui (commit (ui w) (setState toggleMonitoring w))) = false
              /\ interval (commit (ui w) (setState toggleMonitoring w))
                 = if isConnected (ui w) then Some 3000 else None).
  { destruct w as [[c wm m a sc av sd er hr] iv ts ds rq].
    simpl in Hoff. subst m. destruct a, c, iv; repeat split; reflexivity. }
  destruct H as (Hm & Ha & Hi).
  split; [exact Hm|]. split; [exact Ha|]. split; [exact Hi|].
  intros scaled Hlo Hhi. simpl. rewrite Hi.
  destruct (isConnected (ui w)); [|reflexivity].
  apply andb_true_intro. split.
  - by apply Qle_bool_iff.
  - apply negb_true_iff, not_true_is_false. intros Hge.
    apply Qle_bool_iff in Hge. lra.
Qed.

Lemma start_registers_interval_witness :
  isMonitoring (ui hastyWorld) = false /\
  exists w1, dispatch PressToggle hastyWorld = Normal w1 /\
    isMonitoring (ui w1) = true /\
    alertActive (ui w1) = false /\
    interval w1 = Some 3000 /\
    (0 <= 50)%Q /\ (50 < 100)%Q /\
    enabled w1 (IntervalFires 50) = true.
Proof.
  split; [reflexivity|].
  destruct (start_registers_interval hastyWorld eq_refl)
    as (w1 & Hd & Hm & Ha & Hi & Hen).
  exists w1. split; [exact Hd|]. split; [exact Hm|]. split; [exact Ha|].
  split; [exact Hi|].
  assert (Hlo : (0 <= 50)%Q) by (unfold Qle; simpl; lia).
  assert (Hhi : (50 < 100)%Q) by reflexivity.
  split; [exact Hlo|]. split; [exact Hhi|]. exact (Hen 50%Q Hlo Hhi).
Defined.

(** X6: toggling monitoring twice restores the monitoring flag and, when the
    timer was in step with the flags, the timer; every other state cell,
    timer, dialog and request count is as before, except that the alert
    flag is cleared. *)
Theorem toggle_twice (w : World) :
  synced w ->
  exists w1 w2,
    dispatch PressToggle w = Normal w1 /\
    dispatch PressToggle w1 = Normal w2 /\
    ui w2 = setAlertActive false (ui w) /\
    interval w2 = interval w /\
    timeouts w2 = timeouts w /\
    dialogs w2 = dialogs w /\
    requests w2 = requests w.
Proof.
  intros Hs. eexists. eexists.
  split; [reflexivity|]. split; [reflexivity|].
  destruct w as [[c wm m a sc av sd er hr] iv ts ds rq].
  unfold synced in Hs. simpl in Hs. subst iv.
  destruct c, m, a; repeat split; reflexivity.
Qed.

Lemma toggle_twice_witness :
  synced monitoringWorld /\
  exists w1 w2,
    dispatch PressToggle monitoringWorld = Normal w1 /\
    dispatch PressToggle w1 = Normal w2 /\
    ui w2 = setAlertActive false (ui monitoringWorld) /\
    interval w2 = interval monitoringWorld /\
    timeouts w2 = timeouts monitoringWorld /\
    dialogs w2 = dialogs monitoringWorld /\
    requests w2 = requests monitoringWorld.
Proof.
  assert (Hs : synced monitoringWorld) by reflexivity.
  split; [exact Hs|]. exact (toggle_twice monitoringWorld Hs).
Defined.

(** ** Alerts *)

Lemma dispatch_alarming_tick (scaled : Q) (w : World) :
  alarming scaled = true ->
  dispatch (IntervalFires scaled) w =
  Normal {| ui := setAlertActive true
                    (setWaterMovement (newMovementOf scaled) (ui w));
            interval := interval w; timeouts := timeouts w;
            dialogs := (dialogs w ++ [drowningAlert])%list;
            requests := S (requests w) |}.
Proof.
  intros Hal. unfold dispatch, handle. rewrite bind_Normal.
  unfold tick. unfold alarming in Hal. rewrite Hal.
  by rewrite commit_same_deps.
Qed.

(** X7: there is no debounce: in a run of ticks whose values are all above
    70, every tick opens one more drowning dialog and sends one more
    request, and the alert flag is set after the run. *)
Theorem alarming_ticks_stack_dialogs (vs : list Q) (w w' : World) :
  exec (map IntervalFires vs) w = Some w' ->
  forallb alarming vs = true ->
  dialogs w' = (dialogs w ++ replicate (length vs) drowningAlert)%list /\
  requests w' = (requests w + length vs)%nat /\
  (vs <> [] -> alertActive (ui w') = true).
Proof.
  revert w. induction vs as [|v vs IH]; intros w Hex Hall.
  - injection Hex as <-. simpl. rewrite app_nil_r. split; [done|].
    split; [lia | done].
  - cbn [map exec] in Hex. simpl in Hall.
    apply andb_true_iff in Hall as [Hv Hvs].
    destruct (enabled w (IntervalFires v)); [|discriminate].
    rewrite (dispatch_alarming_tick v w Hv) in Hex.
    destruct (IH _ Hex Hvs) as (Hd & Hr & Ha). simpl in Hd, Hr.
    split; [|split].
    + rewrite Hd, <- app_assoc. reflexivity.
    + rewrite Hr. simpl. lia.
    + intros _. destruct vs as [|v' vs]; [|apply Ha; discriminate].
      by injection Hex as <-.
Qed.

Lemma alarming_ticks_stack_dialogs_witness :
  exists w',
    exec (map IntervalFires [80; 90; 71 + (1 # 2)]%Q) monitoringWorld = Some w' /\
    forallb alarming [80; 90; 71 + (1 # 2)]%Q = true /\
    dialogs w' = [drowningAlert; drowningAlert; drowningAlert] /\
    requests w' = 4%nat /\
    alertActive (ui w') = true.
Proof.
  destruct (exec (map IntervalFires [80; 90; 71 + (1 # 2)]%Q) monitoringWorld)
    as [w'|] eqn:Hex; [|vm_compute in Hex; discriminate].
  exists w'. split; [reflexivity|].
  assert (Hall : forallb alarming [80; 90; 71 + (1 # 2)]%Q = true)
    by reflexivity.
  split; [exact Hall|].
  destruct (alarming_ticks_stack_dialogs _ _ _ Hex Hall) as (Hd & Hr & Ha).
  split; [exact Hd|]. split; [exact Hr|]. apply Ha. discriminate.
Defined.

(** X8: pressing the button of an open dialog closes that dialog only; the
    button of a drowning dialog clears the alert flag and the button of any
    other dialog changes no state cell; in both cases the water movement,
    the monitoring flag, the timers and the requests in flight are as
    before. *)
Theorem acknowledge_clears_flag_only (w : World) (i : nat) (d : Dialog) :
  dialogs w !! i = Some d ->
  exists w', dispatch (PressOk i) w = Normal w' /\
    ui w' = match onPress d with
            | ClearAlert => setAlertActive false (ui w)
            | NoHandler => ui w
            end /\
    dialogs w' = delete i (dialogs w) /\
    interval w' = interval w /\
    timeouts w' = timeouts w /\
    requests w' = requests w.
Proof.
  intros Hi. eexists. split; [reflexivity|].
  unfold handle, pressOk. rewrite Hi.
  destruct (onPress d); rewrite commit_same_deps by reflexivity; auto 10.
Qed.

Lemma acknowledge_clears_flag_only_witness :
  dialogs hastyWorld !! 1%nat = Some (connectingDialog spaDevice) /\
  exists w', dispatch (PressOk 1) hastyWorld = Normal w' /\
    ui w' = ui hastyWorld /\
    dialogs w' = [ connectingDialog poolDevice; connectedDialog poolDevice ] /\
    interval w' = interval hastyWorld /\
    timeouts w' = timeouts hastyWorld /\
    requests w' = requests hastyWorld.
Proof.
  split; [reflexivity|].
  exact (acknowledge_clears_flag_only hastyWorld 1 _ eq_refl).
Defined.

(** ** Requests and the chart *)

(** X9: disconnecting does not cancel a request in flight: the request can
    still settle afterwards, and when it succeeds its body becomes the
    snapshot and its point is appended to the chart although the component is
    disconnected. *)
Theorem request_outlives_disconnect
        (w : World) (st : Z) (body : JSON) (now : string)
        (d : Dataset) (rest : list Dataset) :
  (0 < requests w)%nat ->
  200 <= st <= 299 ->
  body <> JNull ->
  datasets (heartRateData (ui w)) = d :: rest ->
  exists w1 w2,
    dispatch PressDisconnect w = Normal w1 /\
    enabled w1 (FetchSettles (Normal {| status := st; json := Normal body |}) now)
    = true /\
    dispatch (FetchSettles (Normal {| status := st; json := Normal body |}) now) w1
    = Normal w2 /\
    isConnected (ui w2) = false /\
    sensorData (ui w2) = Some body /\
    labels (heartRateData (ui w2)) =
      ((if (10 <=? length (labels (heartRateData (ui w))))%nat
        then tail (labels (heartRateData (ui w)))
        else labels (heartRateData (ui w))) ++ [now])%list /\
    requests w2 = pred (requests w).
Proof.
  intros Hreq Hst Hnn Hd. eexists. eexists.
  split; [reflexivity|].
  assert (Hr : requests (commit (ui w) (setState disconnectDevice w))
               = requests w).
  { rewrite requests_commit. simpl. by rewrite andb_false_r. }
  split; [simpl; rewrite Hr; by apply Nat.ltb_lt|].
  unfold dispatch at 1. unfold handle, settle. rewrite ui_commit.
  change (ui (setState disconnectDevice w)) with (disconnectDevice (ui w)).
  rewrite (fetchSettled_ok st body now _ d rest Hst Hnn) by exact Hd.
  rewrite !bind_Normal. split; [reflexivity|].
  rewrite ui_commit, !requests_commit. simpl. rewrite !andb_false_r.
  repeat split; reflexivity.
Qed.

Lemma request_outlives_disconnect_witness :
  (0 < requests monitoringWorld)%nat /\
  200 <= 200 <= 299 /\
  reading88 <> JNull /\
  datasets (heartRateData (ui monitoringWorld)) = {| data := [] |} :: [] /\
  exists w1 w2,
    dispatch PressDisconnect monitoringWorld = Normal w1 /\
    enabled w1 (FetchSettles (Normal {| status := 200; json := Normal reading88 |})
                             "10:15:00") = true /\
    dispatch (FetchSettles (Normal {| status := 200; json := Normal reading88 |})
                           "10:15:00") w1 = Normal w2 /\
    isConnected (ui w2) = false /\
    sensorData (ui w2) = Some reading88 /\
    labels (heartRateData (ui w2)) = ["10:15:00"] /\
    requests w2 = 0%nat.
Proof.
  assert (H1 : (0 < requests monitoringWorld)%nat) by (simpl; lia).
  assert (H2 : 200 <= 200 <= 299) by lia.
  assert (H3 : reading88 <> JNull) by discriminate.
  split; [exact H1|]. split; [exact H2|]. split; [exact H3|].
  split; [reflexivity|].
  exact (request_outlives_disconnect monitoringWorld 200 reading88 "10:15:00"
                                     {| data := [] |} [] H1 H2 H3 eq_refl).
Defined.

(** X10: the chart updater throws a TypeError exactly when the body is
    [null] or the previous chart has no dataset, and returns a chart in every
    other case. *)
Theorem updater_throws_iff (body : JSON) (now : string) (c : ChartData) :
  (heartRateUpdater body now c = Throw TypeError <->
   body = JNull \/ datasets c = []) /\
  ((exists c', heartRateUpdater body now c = Normal c') <->
   body <> JNull /\ datasets c <> []).
Proof.
  assert (Hcase : body = JNull \/ body <> JNull)
    by (destruct body; (by left) || (by right)).
  destruct (datasets c) as [|d rest] eqn:Hd.
  - assert (Ht : heartRateUpdater body now c = Throw TypeError).
    { unfold heartRateUpdater. by rewrite Hd. }
    rewrite Ht. split; split; auto.
    + intros [c' Hc']. discriminate.
    + intros [_ H]. done.
  - destruct Hcase as [->|Hnn].
    + assert (Ht : heartRateUpdater JNull now c = Throw TypeError).
      { unfold heartRateUpdater. by rewrite Hd. }
      rewrite Ht. split; split; auto.
      * intros [c' Hc']. discriminate.
      * intros [H _]. done.
    + rewrite (heartRateUpdater_spec body now c d rest Hnn Hd).
      split; split.
      * discriminate.
      * intros [H|H]; done.
      * intros _. split; [exact Hnn | discriminate].
      * intros _. by eexists.
Qed.

(** X11: a truthy [heart_rate.red] is charted as it is, whatever its type:
    when a request succeeds with such a body, the point appended to the data
    is that value itself. *)
Theorem truthy_red_charted_unchanged
        (st : Z) (body v : JSON) (now : string) (s : AppState)
        (d : Dataset) (rest : list Dataset) :
  200 <= st <= 299 ->
  body <> JNull ->
  redOf body = Some v ->
  truthy (Some v) = true ->
  datasets (heartRateData s) = d :: rest ->
  exists s',
    fetchSettled (Normal {| status := st; json := Normal body |}) now s
    = Normal s' /\
    datasets (heartRateData s') =
      [ {| data := ((if (10 <=? length (labels (heartRateData s)))%nat
                     then tail (data d) else data d) ++ [v])%list |} ].
Proof.
  intros Hst Hnn Hred Htr Hd.
  rewrite (fetchSettled_ok st body now s d rest) by done.
  assert (Hp : pointOf body = v).
  { unfold pointOf, orElse. by rewrite Hred, Htr. }
  rewrite Hp. eexists. split; reflexivity.
Qed.

Lemma truthy_red_charted_unchanged_witness :
  200 <= 204 <= 299 /\
  textReading <> JNull /\
  redOf textReading = Some (JStr "72") /\
  truthy (Some (JStr "72")) = true /\
  datasets (heartRateData initialState) = {| data := [] |} :: [] /\
  exists s',
    fetchSettled (Normal {| status := 204; json := Normal textReading |})
                 "10:15:00" initialState = Normal s' /\
    datasets (heartRateData s') = [ {| data := [JStr "72"] |} ].
Proof.
  assert (H1 : 200 <= 204 <= 299) by lia.
  assert (H2 : textReading <> JNull) by discriminate.
  assert (H3 : redOf textReading = Some (JStr "72")) by reflexivity.
  split; [exact H1|]. split; [exact H2|]. split; [exact H3|].
  split; [reflexivity|]. split; [reflexivity|].
  exact (truthy_red_charted_unchanged 204 textReading (JStr "72") "10:15:00"
           initialState {| data := [] |} [] H1 H2 H3 eq_refl eq_refl).
Defined.

(** X12: in every state a run reaches from the initial one, whatever the
    events, the chart has exactly one dataset, with as many data points as
    labels, and at most ten of them. *)
Theorem chart_window_invariant (es : list Event) (w : World) :
  exec es initialWorld = Some w ->
  exists d : Dataset,
    datasets (heartRateData (ui w)) = [d] /\
    length (data d) = length (labels (heartRateData (ui w))) /\
    (length (labels (heartRateData (ui w))) <= 10)%nat.
Proof. intros Hex. exact (reachable_windowed es w Hex). Qed.

(** X13: a run in which no request settles leaves the snapshot and the chart
    as they were, whatever else happens (ticks, toggling, disconnecting,
    reconnecting). *)
Theorem chart_survives_other_events (es : list Event) (w w' : World) :
  exec es w = Some w' ->
  existsb settlesRequest es = false ->
  sensorData (ui w') = sensorData (ui w) /\
  heartRateData (ui w') = heartRateData (ui w).
Proof.
  revert w. induction es as [|e es IH]; intros w Hex Hno.
  - by injection Hex as <-.
  - simpl in Hex, Hno. apply orb_false_elim in Hno as [He Hes].
    destruct (enabled w e); [|discriminate].
    destruct (dispatch e w) as [w1|] eqn:Hd; [|discriminate].
    destruct (IH w1 Hex Hes) as [-> ->].
    destruct (dispatch_sensor_frame e w w1 Hd)
      as [(net & now & -> & _) | (Hsd & _ & Hc)]; [discriminate|auto].
Qed.

(** X14: the error message changes only when a request fails: a run in which
    every request that settles succeeds leaves it as it was. *)
Theorem error_only_from_failed_request (es : list Event) (w w' : World) :
  exec es w = Some w' ->
  existsb failedRequest es = false ->
  error (ui w') = error (ui w).
Proof.
  revert w. induction es as [|e es IH]; intros w Hex Hno.
  - by injection Hex as <-.
  - simpl in Hex, Hno. apply orb_false_elim in Hno as [He Hes].
    destruct (enabled w e); [|discriminate].
    destruct (dispatch e w) as [w1|] eqn:Hd; [|discriminate].
    rewrite (IH w1 Hex Hes).
    destruct (dispatch_sensor_frame e w w1 Hd)
      as [(net & now & -> & Hs) | (_ & Herr & _)]; [|exact Herr].
    simpl in He. apply negb_false_iff in He.
    unfold requestSucceeds in He. unfold fetchSettled in Hs.
    destruct (fetchJson net) as [body|]; [|discriminate].
    destruct (heartRateUpdater _ _ _) as [c|]; [|discriminate].
    rewrite bind_Normal in Hs. injection Hs as Hs. by rewrite <- Hs.
Qed.

Lemma chart_window_invariant_witness :
  exists w, exec fetchingSession initialWorld = Some w /\
    exists d : Dataset,
      datasets (heartRateData (ui w)) = [d] /\
      length (data d) = length (labels (heartRateData (ui w))) /\
      (length (labels (heartRateData (ui w))) <= 10)%nat.
Proof.
  destruct (exec fetchingSession initialWorld) as [w|] eqn:Hex;
    [|vm_compute in Hex; discriminate].
  exists w. split; [reflexivity|].
  exact (chart_window_invariant fetchingSession w Hex).
Defined.

Lemma chart_survives_other_events_witness :
  exists w',
    exec [ IntervalFires 80; PressToggle; PressDisconnect ] monitoringWorld
    = Some w' /\
    existsb settlesRequest [ IntervalFires 80; PressToggle; PressDisconnect ]
    = false /\
    sensorData (ui w') = sensorData (ui monitoringWorld) /\
    heartRateData (ui w') = heartRateData (ui monitoringWorld).
Proof.
  destruct (exec [ IntervalFires 80; PressToggle; PressDisconnect ]
                 monitoringWorld) as [w'|] eqn:Hex;
    [|vm_compute in Hex; discriminate].
  exists w'. split; [reflexivity|]. split; [reflexivity|].
  exact (chart_survives_other_events _ _ _ Hex eq_refl).
Defined.

Lemma error_only_from_failed_request_witness :
  exists w',
    exec [ FetchSettles (Normal {| status := 200; json := Normal reading88 |})
                        "10:15:00";
           IntervalFires 50 ] monitoringWorld = Some w' /\
    existsb failedRequest
      [ FetchSettles (Normal {| status := 200; json := Normal reading88 |})
                     "10:15:00";
        IntervalFires 50 ] = false /\
    error (ui w') = error (ui monitoringWorld).
Proof.
  destruct (exec [ FetchSettles
                     (Normal {| status := 200; json := Normal reading88 |})
                     "10:15:00";
                   IntervalFires 50 ] monitoringWorld) as [w'|] eqn:Hex;
    [|vm_compute in Hex; discriminate].
  exists w'. split; [reflexivity|]. split; [reflexivity|].
  exact (error_only_from_failed_request _ _ _ Hex eq_refl).
Defined.

(** ** What is on screen *)

Lemma readingsOf_object (props : gmap string JSON) :
  props !! "mpu6050" = None ->
  exists r : Readings,
    readingsOf (Some (JObj props)) = Normal r /\
    redShown r = redOf (JObj props) /\
    temperatureShown r = None.
Proof.
  intros Hm. unfold readingsOf, redOf. cbn [member]. rewrite Hm, !bind_Normal.
  destruct (props !! "heart_rate") as [[| | | | |h]|];
    eexists; (split; [reflexivity|]); split; reflexivity.
Qed.

Lemma readingsOf_bare_motion (props sensor : gmap string JSON) :
  props !! "mpu6050" = Some (JObj sensor) ->
  sensor !! "gyroscope" = None ->
  readingsOf (Some (JObj props)) = Throw TypeError.
Proof.
  intros Hm Hg. unfold readingsOf. cbn [member]. rewrite Hm, !bind_Normal.
  assert (Hx : axisOf (Some (JObj sensor)) "gyroscope" "x" = Throw TypeError).
  { unfold axisOf. cbn [member]. by rewrite Hg. }
  destruct (props !! "heart_rate") as [[| | | | |h]|];
    cbn [optMember member]; rewrite ?bind_Normal, Hx; reflexivity.
Qed.

(** X15: after a request has succeeded while no error message is set, the
    sensor display is still the loading text if the body is falsy (0, false
    or the empty string), although the chart has gained a point; if the body
    is truthy it is the readings branch evaluated on that body with the new
    chart, which returns the readings for an object without [mpu6050] and
    throws a TypeError for an object whose [mpu6050] is an object without
    [gyroscope]. *)
Theorem display_after_success
        (st : Z) (body : JSON) (now : string) (s : AppState)
        (d : Dataset) (rest : list Dataset) :
  200 <= st <= 299 ->
  body <> JNull ->
  datasets (heartRateData s) = d :: rest ->
  error s = None ->
  exists s',
    fetchSettled (Normal {| status := st; json := Normal body |}) now s
    = Normal s' /\
    renderSensorData s' =
      (if truthy (Some body)
       then readings ← readingsOf (Some body);
            Normal (ReadingsView readings (heartRateData s'))
       else Normal LoadingView) /\
    length (series (heartRateData s')) =
      S (if (10 <=? length (labels (heartRateData s)))%nat
         then length (tail (data d)) else length (data d)) /\
    (forall props : gmap string JSON,
       body = JObj props ->
       props !! "mpu6050" = None ->
       exists r : Readings,
         renderSensorData s' = Normal (ReadingsView r (heartRateData s')) /\
         redShown r = redOf body /\
         temperatureShown r = None) /\
    (forall props sensor : gmap string JSON,
       body = JObj props ->
       props !! "mpu6050" = Some (JObj sensor) ->
       sensor !! "gyroscope" = None ->
       renderSensorData s' = Throw TypeError).
Proof.
  intros Hst Hnn Hd Herr.
  rewrite (fetchSettled_ok st body now s d rest) by done.
  eexists. split; [reflexivity|].
  set (s' := setHeartRateData _ _).
  assert (Hr : renderSensorData s' =
               if truthy (Some body)
               then readings ← readingsOf (Some body);
                    Normal (ReadingsView readings (heartRateData s'))
               else Normal LoadingView).
  { unfold renderSensorData, sensorReadout.
    change (error s') with (error s). rewrite Herr.
    change (sensorData s') with (Some body).
    by destruct (truthy (Some body)). }
  split; [exact Hr|]. split; [|split].
  - unfold series, s'. cbn [heartRateData setHeartRateData datasets data].
    rewrite length_app. change (length [pointOf body]) with 1%nat.
    destruct (10 <=? length (labels (heartRateData s)))%nat; lia.
  - intros props -> Hm. rewrite Hr. cbn [truthy].
    destruct (readingsOf_object props Hm) as (r & Hro & Hred & Ht).
    exists r. rewrite Hro. auto.
  - intros props sensor -> Hm Hg. rewrite Hr. cbn [truthy].
    by rewrite (readingsOf_bare_motion props sensor Hm Hg).
Qed.

Lemma display_after_success_witness :
  (200 <= 200 <= 299 /\
   JNum 0 <> JNull /\
   datasets (heartRateData initialState) = {| data := [] |} :: [] /\
   error initialState = None /\
   exists s',
     fetchSettled (Normal {| status := 200; json := Normal (JNum 0) |})
                  "10:15:00" initialState = Normal s' /\
     renderSensorData s' = Normal LoadingView /\
     length (series (heartRateData s')) = 1%nat) /\
  (bareMotion <> JNull /\
   exists s',
     fetchSettled (Normal {| status := 200; json := Normal bareMotion |})
                  "10:15:00" initialState = Normal s' /\
     renderSensorData s' = Throw TypeError) /\
  (reading88 <> JNull /\
   exists s' r,
     fetchSettled (Normal {| status := 200; json := Normal reading88 |})
                  "10:15:00" initialState = Normal s' /\
     renderSensorData s' = Normal (ReadingsView r (heartRateData s')) /\
     redShown r = Some (JNum 88)).
Proof.
  assert (H1 : 200 <= 200 <= 299) by lia.
  assert (H2 : JNum 0 <> JNull) by discriminate.
  assert (H3 : bareMotion <> JNull) by discriminate.
  assert (H4 : reading88 <> JNull) by discriminate.
  split; [|split].
  - split; [exact H1|]. split; [exact H2|].
    split; [reflexivity|]. split; [reflexivity|].
    destruct (display_after_success 200 (JNum 0) "10:15:00" initialState
                {| data := [] |} [] H1 H2 eq_refl eq_refl)
      as (s' & Hs & Hr & Hl & _).
    exists s'. split; [exact Hs|]. split; [exact Hr | exact Hl].
  - split; [exact H3|].
    destruct (display_after_success 200 bareMotion "10:15:00" initialState
                {| data := [] |} [] H1 H3 eq_refl eq_refl)
      as (s' & Hs & _ & _ & _ & Hthrow).
    exists s'. split; [exact Hs|].
    apply (Hthrow {[ "mpu6050" := JObj ∅ ]} ∅); reflexivity.
  - split; [exact H4|].
    destruct (display_after_success 200 reading88 "10:15:00" initialState
                {| data := [] |} [] H1 H4 eq_refl eq_refl)
      as (s' & Hs & _ & _ & Hobj & _).
    destruct (Hobj {[ "heart_rate" := JObj {[ "red" := JNum 88 ]} ]}
                   eq_refl eq_refl) as (r & Hr & Hred & _).
    exists s', r. split; [exact Hs|]. split; [exact Hr|].
    rewrite Hred. reflexivity.
Defined.

(** X16: in every state a run reaches from the initial one, the two status
    texts of the monitoring screen agree: "DANGER" goes with "ALERT!",
    "SAFE" with "Monitoring" and "OFF" with "Not Active"; and the water
    movement shown is between 0 and 99. *)
Theorem monitoring_screen_consistent (es : list Event) (w : World) :
  exec es initialWorld = Some w ->
  (statusText (renderMonitoringScreen (ui w)) = "DANGER" <->
   indicatorText (renderMonitoringScreen (ui w)) = "ALERT!") /\
  (statusText (renderMonitoringScreen (ui w)) = "SAFE" <->
   indicatorText (renderMonitoringScreen (ui w)) = "Monitoring") /\
  (statusText (renderMonitoringScreen (ui w)) = "OFF" <->
   indicatorText (renderMonitoringScreen (ui w)) = "Not Active") /\
  0 <= movementShown (renderMonitoringScreen (ui w)) <= 99.
Proof.
  intros Hex.
  destruct (exec_coherent es _ w initial_coherent Hex) as (_ & Ha & _ & Hwm).
  unfold renderMonitoringScreen. simpl.
  destruct (alertActive (ui w)), (isMonitoring (ui w));
    try (specialize (Ha eq_refl); discriminate);
    repeat split; try done; lia.
Qed.

Lemma monitoring_screen_consistent_witness :
  exists w, exec alarmedSession initialWorld = Some w /\
    statusText (renderMonitoringScreen (ui w)) = "DANGER" /\
    indicatorText (renderMonitoringScreen (ui w)) = "ALERT!" /\
    0 <= movementShown (renderMonitoringScreen (ui w)) <= 99.
Proof.
  destruct (exec alarmedSession initialWorld) as [w|] eqn:Hex;
    [|vm_compute in Hex; discriminate].
  exists w. split; [reflexivity|].
  destruct (monitoring_screen_consistent alarmedSession w Hex)
    as (Hd & _ & _ & Hwm).
  assert (Hs : statusText (renderMonitoringScreen (ui w)) = "DANGER").
  { vm_compute in Hex. injection Hex as <-. reflexivity. }
  split; [exact Hs|]. split; [apply Hd; exact Hs | exact Hwm].
Defined.

(** X17: in every state a run reaches from the initial one, the device list
    of the connection screen is either the placeholder text (the scanning
    text with the activity indicator while scanning, "No devices found"
    otherwise) or the rows of the three mock devices in order, with the
    distinct keys 001, 002 and 003; rescanning never duplicates a row. *)
Theorem device_rows_are_mock_devices (es : list Event) (w : World) :
  exec es initialWorld = Some w ->
  (availableDevices (ui w) = [] /\
   deviceList (renderConnectionScreen (ui w)) =
     NoDevices (if isScanning (ui w) then "Scanning for devices..."
                else "No devices found")
               (isScanning (ui w))) \/
  (exists rows : list DeviceRow,
     deviceList (renderConnectionScreen (ui w)) = DeviceRows rows /\
     map rowKey rows = ["001"; "002"; "003"] /\
     map rowConnects rows = mockDevices).
Proof.
  intros Hex.
  destruct (exec_listed es _ w initial_listed Hex) as [[Hnil|Hmock] _].
  - left. split; [exact Hnil|].
    unfold renderConnectionScreen. simpl. by rewrite Hnil.
  - right. exists (map renderItem mockDevices).
    unfold renderConnectionScreen. simpl. rewrite Hmock. auto.
Qed.

Lemma device_rows_are_mock_devices_witness :
  exec hastySession initialWorld = Some hastyWorld /\
  exists rows : list DeviceRow,
    deviceList (renderConnectionScreen (ui hastyWorld)) = DeviceRows rows /\
    map rowKey rows = ["001"; "002"; "003"] /\
    map rowConnects rows = mockDevices.
Proof.
  split; [exact hastySession_runs|].
  destruct (device_rows_are_mock_devices hastySession hastyWorld
                                         hastySession_runs)
    as [[Hnil _]|Hrows]; [discriminate Hnil | exact Hrows].
Defined.

(** X18: disconnecting does not clear the device list: whenever the
    component is connected, in a state a run reaches from the initial one,
    disconnecting brings back the connection screen with the three mock
    devices listed, ready to be pressed without a new scan. *)
Theorem disconnect_shows_device_list (es : list Event) (w : World) :
  exec es initialWorld = Some w ->
  isConnected (ui w) = true ->
  exists w1 c,
    dispatch PressDisconnect w = Normal w1 /\
    render (ui w1) = ConnectionView c /\
    deviceList c = DeviceRows (map renderItem mockDevices) /\
    scanDisabled c = isScanning (ui w) /\
    forall device : Device,
      device ∈ mockDevices -> enabled w1 (PressDevice device) = true.
Proof.
  intros Hex Hc.
  destruct (exec_listed es _ w initial_listed Hex) as [_ Hmock].
  assert (Hav : availableDevices (ui w) = mockDevices).
  { apply Hmock. by rewrite Hc. }
  eexists. eexists. split; [reflexivity|].
  rewrite ui_commit. simpl. unfold render. simpl.
  split; [reflexivity|]. unfold renderConnectionScreen. simpl.
  rewrite Hav. split; [reflexivity|]. split; [reflexivity|].
  intros device Hin. simpl. rewrite ui_commit. simpl. rewrite Hav.
  by apply bool_decide_eq_true.
Qed.

Lemma disconnect_shows_device_list_witness :
  exec monitoringSession initialWorld = Some monitoringWorld /\
  isConnected (ui monitoringWorld) = true /\
  exists w1 c,
    dispatch PressDisconnect monitoringWorld = Normal w1 /\
    render (ui w1) = ConnectionView c /\
    deviceList c = DeviceRows (map renderItem mockDevices) /\
    scanDisabled c = isScanning (ui monitoringWorld) /\
    spaDevice ∈ mockDevices /\
    enabled w1 (PressDevice spaDevice) = true.
Proof.
  split; [exact monitoringSession_runs|]. split; [reflexivity|].
  destruct (disconnect_shows_device_list monitoringSession monitoringWorld
              monitoringSession_runs eq_refl)
    as (w1 & c & Hd & Hr & Hl & Hs & Hen).
  exists w1, c. split; [exact Hd|]. split; [exact Hr|].
  split; [exact Hl|]. split; [exact Hs|].
  assert (Hin : spaDevice ∈ mockDevices).
  { apply list_elem_of_In. simpl. auto. }
  split; [exact Hin | exact (Hen spaDevice Hin)].
Defined.

(** ** Timers and presses *)

(** X19: no callback cancels a one-shot timer: along a run in which no
    one-shot timer fires, every pending timer stays pending, in the same
    position, and new ones are only added after it. *)
Theorem pending_timers_survive (es : list Event) (w w' : World) :
  exec es w = Some w' ->
  existsb firesTimeout es = false ->
  exists added : list Timer, timeouts w' = (timeouts w ++ added)%list.
Proof.
  revert w. induction es as [|e es IH]; intros w Hex Hno.
  - injection Hex as <-. exists []. by rewrite app_nil_r.
  - simpl in Hex, Hno. apply orb_false_elim in Hno as [He Hes].
    destruct (enabled w e); [|discriminate].
    destruct (dispatch e w) as [w1|] eqn:Hd; [|discriminate].
    destruct (IH w1 Hex Hes) as [added' Ht'].
    destruct (timeouts_only_fire e w w1 Hd) as [added Ht].
    exists (added ++ added')%list. rewrite Ht', Ht, app_assoc.
    by destruct e.
Qed.

Lemma pending_timers_survive_witness :
  exists w',
    exec [ PressOk 0; PressToggle; IntervalFires 80; PressDisconnect;
           PressScan ] hastyWorld = Some w' /\
    existsb firesTimeout [ PressOk 0; PressToggle; IntervalFires 80;
                           PressDisconnect; PressScan ] = false /\
    exists added : list Timer,
      timeouts w' = (timeouts hastyWorld ++ added)%list.
Proof.
  destruct (exec [ PressOk 0; PressToggle; IntervalFires 80; PressDisconnect;
                   PressScan ] hastyWorld) as [w'|] eqn:Hex;
    [|vm_compute in Hex; discriminate].
  exists w'. split; [reflexivity|]. split; [reflexivity|].
  exact (pending_timers_survive _ _ _ Hex eq_refl).
Defined.

(** X20: the presses the event loop can deliver are exactly those the
    rendered screen accepts: the scan button unless it is disabled and the
    rows of the device list on the connection screen, the monitoring and
    disconnect buttons on the monitoring screen. *)
Theorem presses_are_on_screen (w : World) (e : Event) :
  isPress e = true ->
  enabled w e = offers (render (ui w)) e.
Proof.
  intros Hp. unfold render.
  destruct e as [| device | | | i | i | scaled | net now]; try discriminate;
    simpl; destruct (isConnected (ui w)); simpl; try reflexivity.
  destruct (availableDevices (ui w)) as [|d0 ds] eqn:Hav; simpl.
  - reflexivity.
  - apply bool_decide_ext.
    change (device ∈ d0 :: ds <->
            device ∈ rowConnects (renderItem d0)
                     :: map rowConnects (map renderItem ds)).
    rewrite map_map, map_id. reflexivity.
Qed.

Lemma presses_are_on_screen_witness :
  isPress PressScan = true /\
  enabled initialWorld PressScan = offers (render (ui initialWorld)) PressScan /\
  enabled initialWorld PressScan = true.
Proof.
  split; [reflexivity|].
  split; [exact (presses_are_on_screen initialWorld PressScan eq_refl)|].
  reflexivity.
Defined.
